(** * Verification of [Python/logger_wrapper.py]

    A shallow embedding of the [LoggerWrapper] class: Python attribute
    lookup (instance dictionary, class body, [__getattr__] fallback),
    the constructor and its three set-up methods as programs of a
    state-and-exception monad over the process-wide logger state and the
    file system, and the format templates the class hands to its sinks. *)

From Stdlib Require Import ZArith List String Ascii Lia Bool Arith.
From stdpp Require Import base gmap strings list.

Local Open Scope string_scope.

(** ** Paths ([pathlib.PurePosixPath]) *)

(** A path is its anchor (absolute or not) and its components, outermost
    first.  Empty components and ["."] never occur in a parsed path. *)
Record Path := mkPath { p_abs : bool; p_parts : list string }.

Fixpoint split_on (sep : ascii) (s cur : string) : list string :=
  match s with
  | EmptyString => [cur]
  | String c s' =>
      if Ascii.eqb c sep then cur :: split_on sep s' ""
      else split_on sep s' (cur ++ String c "")
  end.

Definition is_component (s : string) : bool :=
  negb (String.eqb s "" || String.eqb s ".").

Definition parts_of (s : string) : list string :=
  List.filter is_component (split_on "/" s "").

Definition starts_with_slash (s : string) : bool :=
  match s with
  | String c _ => Ascii.eqb c "/"
  | EmptyString => false
  end.

(** [Path(s)] *)
Definition parse_path (s : string) : Path :=
  mkPath (starts_with_slash s) (parts_of s).

(** [p / s]: an absolute right operand replaces the left one. *)
Definition path_div (p : Path) (s : string) : Path :=
  if starts_with_slash s then parse_path s
  else mkPath (p_abs p) (p_parts p ++ parts_of s)%list.

Fixpoint join_slash (l : list string) : string :=
  match l with
  | [] => ""
  | [x] => x
  | x :: l' => x ++ "/" ++ join_slash l'
  end.

(** [str(p)] *)
Definition path_str (p : Path) : string :=
  match p_abs p, p_parts p with
  | false, [] => "."
  | false, l => join_slash l
  | true, l => "/" ++ join_slash l
  end.

(** [p.name]: the last component. *)
Definition path_name (p : Path) : string := List.last (p_parts p) "".

(** [p.parent] *)
Definition path_parent (p : Path) : Path :=
  mkPath (p_abs p) (List.removelast (p_parts p)).

(** ** Values, exceptions and log records *)

Inductive value :=
| VNone
| VStr (s : string)
| VInt (n : Z)
| VBool (b : bool)
| VPath (p : Path)
| VLoguru                      (* the object bound by [from loguru import logger] *)
| VLoguruAttr (name : string)  (* an attribute of that object, e.g. [logger.info] *)
| VMethod (name : string)      (* a function of the [LoggerWrapper] class body *)
| VBuiltin (name : string)     (* an attribute inherited from [object] *)
| VStderr.                     (* [sys.stderr] *)

Inductive os_error :=
| FileExistsError | FileNotFoundError | NotADirectoryError | PermissionError.

Inductive exn :=
| AttributeError (owner attr : string)
| RecursionError
| TypeError (what : string)
| OSError (kind : os_error) (p : Path).

Inductive result (A : Type) :=
| Ok (a : A)
| Raise (e : exn).
Arguments Ok {A} a.
Arguments Raise {A} e.

Definition type_name (v : value) : string :=
  match v with
  | VNone => "NoneType"
  | VStr _ => "str"
  | VInt _ => "int"
  | VBool _ => "bool"
  | VPath _ => "PosixPath"
  | VLoguru => "Logger"
  | VLoguruAttr _ => "method"
  | VMethod _ => "method"
  | VBuiltin _ => "builtin"
  | VStderr => "TextIOWrapper"
  end.

(** A moment of wall-clock time, as [datetime] breaks it down. *)
Record datetime := mkDatetime {
  dt_year : N; dt_month : N; dt_day : N;
  dt_hour : N; dt_minute : N; dt_second : N; dt_microsecond : N }.

(** The fields of a log record that the two format templates refer to. *)
Record LogRecord := mkRecord {
  r_time : datetime;
  r_level : string;      (* name of the severity level *)
  r_level_no : nat;      (* its number *)
  r_name : string;       (* module name *)
  r_function : string;
  r_line : N;
  r_message : string }.

(** ** The process: logger state and file system *)

(** The keyword arguments of one [logger.add(...)] call, in source order. *)
Definition handler := list (string * value).

Fixpoint kwarg (k : string) (h : handler) : option value :=
  match h with
  | [] => None
  | (k', v) :: h' => if String.eqb k k' then Some v else kwarg k h'
  end.

Inductive node := File | Dir (writable : bool).

(** File-system entries are keyed by anchor and components, innermost
    component first; the root itself is always a directory. *)
Definition fs_key : Type := bool * list string.

Record world := mkWorld {
  handlers : list (nat * handler);       (* sinks registered on the global logger *)
  next_id : nat;                         (* id the next [add] returns *)
  fs : gmap fs_key node;
  outputs : gmap nat (list LogRecord) }. (* what each sink has received *)

Definition set_handlers (hs : list (nat * handler)) (n : nat) (w : world) : world :=
  mkWorld hs n (fs w) (outputs w).

Definition set_fs (f : gmap fs_key node) (w : world) : world :=
  mkWorld (handlers w) (next_id w) f (outputs w).

Definition set_outputs (o : gmap nat (list LogRecord)) (w : world) : world :=
  mkWorld (handlers w) (next_id w) (fs w) o.

Definition handler_ids (w : world) : list nat := List.map fst (handlers w).

(** *** [os.mkdir] and [Path.mkdir(parents=True, exist_ok=True)] *)

Definition fs_lookup (f : gmap fs_key node) (abs : bool) (rparts : list string)
  : option node :=
  match rparts with
  | [] => Some (default (Dir true) (f !! (abs, [])))
  | _ => f !! (abs, rparts)
  end.

Definition is_dir (f : gmap fs_key node) (abs : bool) (rparts : list string) : bool :=
  match fs_lookup f abs rparts with
  | Some (Dir _) => true
  | _ => false
  end.

Definition rpath (abs : bool) (rparts : list string) : Path :=
  mkPath abs (List.rev rparts).

Definition os_mkdir (abs : bool) (rparts : list string) (f : gmap fs_key node)
  : gmap fs_key node * result unit :=
  match fs_lookup f abs rparts with
  | Some _ => (f, Raise (OSError FileExistsError (rpath abs rparts)))
  | None =>
      match fs_lookup f abs (List.tl rparts) with
      | None => (f, Raise (OSError FileNotFoundError (rpath abs rparts)))
      | Some File => (f, Raise (OSError NotADirectoryError (rpath abs rparts)))
      | Some (Dir false) => (f, Raise (OSError PermissionError (rpath abs rparts)))
      | Some (Dir true) => (<[(abs, rparts) := Dir true]> f, Ok tt)
      end
  end.

(** [self.mkdir(parents=False, exist_ok=True)] *)
Definition mkdir_exist_ok (abs : bool) (rparts : list string) (f : gmap fs_key node)
  : gmap fs_key node * result unit :=
  match os_mkdir abs rparts f with
  | (f', Ok tt) => (f', Ok tt)
  | (f', Raise (OSError FileNotFoundError p)) => (f', Raise (OSError FileNotFoundError p))
  | (f', Raise e) => if is_dir f' abs rparts then (f', Ok tt) else (f', Raise e)
  end.

(** [self.mkdir(parents=True, exist_ok=True)]: on [FileNotFoundError] the
    parent is made first, then the directory itself without [parents]. *)
Fixpoint mkdir_parents (abs : bool) (rparts : list string) (f : gmap fs_key node)
  : gmap fs_key node * result unit :=
  match os_mkdir abs rparts f with
  | (f', Ok tt) => (f', Ok tt)
  | (f', Raise (OSError FileNotFoundError p)) =>
      match rparts with
      | [] => (f', Raise (OSError FileNotFoundError p))
      | _ :: rparent =>
          match mkdir_parents abs rparent f' with
          | (f'', Ok tt) => mkdir_exist_ok abs rparts f''
          | (f'', Raise e) => (f'', Raise e)
          end
      end
  | (f', Raise e) => if is_dir f' abs rparts then (f', Ok tt) else (f', Raise e)
  end.

Definition path_mkdir (p : Path) (w : world) : world * result unit :=
  let '(f, r) := mkdir_parents (p_abs p) (List.rev (p_parts p)) (fs w) in
  (set_fs f w, r).

(** ** Decimal numerals and [str()] *)

Definition digit (n : N) : ascii := ascii_of_N (48 + n).

Fixpoint decimal_aux (fuel : nat) (n : N) (acc : string) : string :=
  match fuel with
  | 0 => acc
  | S fuel' =>
      let acc' := String (digit (n mod 10)) acc in
      if (n <? 10)%N then acc' else decimal_aux fuel' (n / 10) acc'
  end.

(** [str(n)] for a natural number: a number has no more decimal digits
    than binary ones, which bounds the number of steps. *)
Definition decimal (n : N) : string := decimal_aux (S (N.size_nat n)) n "".

Definition decimal_Z (n : Z) : string :=
  if (n <? 0)%Z then "-" ++ decimal (Z.abs_N n) else decimal (Z.abs_N n).

(** What an f-string substitutes for [{v}]. *)
Definition format_value (v : value) : string :=
  match v with
  | VNone => "None"
  | VStr s => s
  | VInt n => decimal_Z n
  | VBool true => "True"
  | VBool false => "False"
  | VPath p => path_str p
  | VLoguru => "<loguru.logger>"
  | VLoguruAttr n => "<bound method Logger." ++ n ++ ">"
  | VMethod n => "<bound method LoggerWrapper." ++ n ++ ">"
  | VBuiltin n => "<" ++ n ++ ">"
  | VStderr => "<stderr>"
  end.

(** ** The state-and-exception monad of a method body *)

(** A method runs against the process and the attribute dictionary of
    [self]. *)
Definition pystate : Type := world * gmap string value.

Definition M (A : Type) : Type := pystate -> pystate * result A.

Definition ret {A} (a : A) : M A := fun s => (s, Ok a).
Definition raise {A} (e : exn) : M A := fun s => (s, Raise e).
Definition bind {A B} (m : M A) (k : A -> M B) : M B :=
  fun s =>
    match m s with
    | (s', Ok a) => k a s'
    | (s', Raise e) => (s', Raise e)
    end.

Notation "'do' x <- m ; k" := (bind m (fun x => k))
  (at level 10, x name, m at level 100, k at level 200, only parsing).
Notation "m ;; k" := (bind m (fun _ => k))
  (at level 100, k at level 200, right associativity, only parsing).

Definition lift_world {A} (f : world -> world * result A) : M A :=
  fun s => let '(w', r) := f (fst s) in ((w', snd s), r).

(** [self.name = v] *)
Definition setattr (name : string) (v : value) : M unit :=
  fun s => ((fst s, <[name := v]> (snd s)), Ok tt).

(** ** Format templates ([str.format] with loguru's time tokens) *)

(** A template is literal text and replacement fields [{name:spec}];
    [{{] and [}}] stand for single braces. *)
Inductive piece :=
| Lit (s : string)
| Field (name spec : string).

Inductive pmode :=
| InText (lit : string)
| InName (name : string)
| InSpec (name spec : string).

Definition snoc (s : string) (c : ascii) : string := s ++ String c "".

Definition flush (lit : string) (ps : list piece) : list piece :=
  if String.eqb lit "" then ps else Lit lit :: ps.

(** [None] is the [ValueError] of an unbalanced brace. *)
Fixpoint parse_aux (s : string) (m : pmode) : option (list piece) :=
  match s with
  | EmptyString =>
      match m with
      | InText lit => Some (flush lit [])
      | _ => None
      end
  | String c s' =>
      match m with
      | InText lit =>
          if Ascii.eqb c "{" then
            match s' with
            | String c2 s'' =>
                if Ascii.eqb c2 "{" then parse_aux s'' (InText (snoc lit "{"))
                else option_map (flush lit) (parse_aux s' (InName ""))
            | EmptyString => None
            end
          else if Ascii.eqb c "}" then
            match s' with
            | String c2 s'' =>
                if Ascii.eqb c2 "}" then parse_aux s'' (InText (snoc lit "}"))
                else None
            | EmptyString => None
            end
          else parse_aux s' (InText (snoc lit c))
      | InName n =>
          if Ascii.eqb c "}" then
            option_map (cons (Field n "")) (parse_aux s' (InText ""))
          else if Ascii.eqb c ":" then parse_aux s' (InSpec n "")
          else parse_aux s' (InName (snoc n c))
      | InSpec n sp =>
          if Ascii.eqb c "}" then
            option_map (cons (Field n sp)) (parse_aux s' (InText ""))
          else parse_aux s' (InSpec n (snoc sp c))
      end
  end.

Definition parse_template (s : string) : option (list piece) :=
  parse_aux s (InText "").

(** *** Padding: the [[fill]align][width] part of a format spec *)

Fixpoint rep (n : nat) (c : ascii) : string :=
  match n with
  | 0 => ""
  | S n' => String c (rep n' c)
  end.

Definition is_align (c : ascii) : bool :=
  Ascii.eqb c "<" || Ascii.eqb c ">" || Ascii.eqb c "^".

Definition pad (fill align : ascii) (width : nat) (s : string) : string :=
  let n := width - String.length s in
  if Ascii.eqb align "<" then s ++ rep n fill
  else if Ascii.eqb align ">" then rep n fill ++ s
  else rep (n / 2) fill ++ s ++ rep (n - n / 2) fill.

Definition digit_value (c : ascii) : option nat :=
  let n := nat_of_ascii c in
  if (48 <=? n)%nat && (n <=? 57)%nat then Some (n - 48) else None.

Fixpoint parse_nat_aux (s : string) (acc : nat) : option nat :=
  match s with
  | EmptyString => Some acc
  | String c s' =>
      match digit_value c with
      | Some d => parse_nat_aux s' (10 * acc + d)
      | None => None
      end
  end.

(** A run of decimal digits; the empty run is width 0. *)
Definition parse_nat (s : string) : option nat := parse_nat_aux s 0.

(** Fill, alignment ([None]: the default of the value's type) and width. *)
Definition parse_spec (sp : string) : option (ascii * option ascii * nat) :=
  match sp with
  | String c1 (String c2 rest) =>
      if is_align c2 then option_map (fun w => (c1, Some c2, w)) (parse_nat rest)
      else if is_align c1 then
        option_map (fun w => (" "%char, Some c1, w)) (parse_nat (String c2 rest))
      else option_map (fun w => (" "%char, None, w)) (parse_nat sp)
  | String c1 EmptyString =>
      if is_align c1 then Some (" "%char, Some c1, 0)
      else option_map (fun w => (" "%char, None, w)) (parse_nat sp)
  | EmptyString => Some (" "%char, None, 0)
  end.

Definition apply_spec (default_align : ascii) (sp s : string) : option string :=
  match parse_spec sp with
  | Some (fill, al, w) => Some (pad fill (default default_align al) w s)
  | None => None
  end.

(** *** Time tokens *)

(** The tokens the two templates and the file name use; any other
    character of a time spec stands for itself. *)
Inductive ttoken :=
| TYear4 | TMonth2 | TDay2 | THour2 | TMinute2 | TSecond2 | TMilli3
| TChar (c : ascii).

Fixpoint string_drop (n : nat) (s : string) : string :=
  match n, s with
  | S n', String _ s' => string_drop n' s'
  | _, _ => s
  end.

Fixpoint tokenize_fuel (fuel : nat) (s : string) : list ttoken :=
  match fuel with
  | 0 => []
  | S f =>
      if String.prefix "YYYY" s then TYear4 :: tokenize_fuel f (string_drop 4 s)
      else if String.prefix "SSS" s then TMilli3 :: tokenize_fuel f (string_drop 3 s)
      else if String.prefix "MM" s then TMonth2 :: tokenize_fuel f (string_drop 2 s)
      else if String.prefix "DD" s then TDay2 :: tokenize_fuel f (string_drop 2 s)
      else if String.prefix "HH" s then THour2 :: tokenize_fuel f (string_drop 2 s)
      else if String.prefix "mm" s then TMinute2 :: tokenize_fuel f (string_drop 2 s)
      else if String.prefix "ss" s then TSecond2 :: tokenize_fuel f (string_drop 2 s)
      else
        match s with
        | EmptyString => []
        | String c s' => TChar c :: tokenize_fuel f s'
        end
  end.

Definition tokenize (s : string) : list ttoken :=
  tokenize_fuel (String.length s) s.

(** [s.zfill(w)] *)
Definition zfill (w : nat) (s : string) : string :=
  rep (w - String.length s) "0" ++ s.

Definition render_token (t : datetime) (k : ttoken) : string :=
  match k with
  | TYear4 => zfill 4 (decimal (dt_year t))
  | TMonth2 => zfill 2 (decimal (dt_month t))
  | TDay2 => zfill 2 (decimal (dt_day t))
  | THour2 => zfill 2 (decimal (dt_hour t))
  | TMinute2 => zfill 2 (decimal (dt_minute t))
  | TSecond2 => zfill 2 (decimal (dt_second t))
  | TMilli3 => zfill 3 (decimal (dt_microsecond t / 1000))
  | TChar c => String c ""
  end.

Fixpoint concat_strings (l : list string) : string :=
  match l with
  | [] => ""
  | s :: l' => s ++ concat_strings l'
  end.

Definition render_time (spec : string) (t : datetime) : string :=
  concat_strings (List.map (render_token t) (tokenize spec)).

(** *** Rendering *)

Inductive fval :=
| FStr (s : string)
| FNum (n : N)
| FTime (t : datetime).

Definition render_field (lookup : string -> option fval) (name spec : string)
  : option string :=
  match lookup name with
  | Some (FStr s) => apply_spec "<" spec s
  | Some (FNum n) => apply_spec ">" spec (decimal n)
  | Some (FTime t) =>
      if String.eqb spec "" then None else Some (render_time spec t)
  | None => None
  end.

Fixpoint render_pieces (lookup : string -> option fval) (ps : list piece)
  : option string :=
  match ps with
  | [] => Some ""
  | Lit s :: ps' => option_map (String.append s) (render_pieces lookup ps')
  | Field n sp :: ps' =>
      match render_field lookup n sp, render_pieces lookup ps' with
      | Some a, Some b => Some (a ++ b)
      | _, _ => None
      end
  end.

Definition render_with (lookup : string -> option fval) (tpl : string)
  : option string :=
  match parse_template tpl with
  | Some ps => render_pieces lookup ps
  | None => None
  end.

(** The keys of a record that the templates of the class use. *)
Definition record_field (r : LogRecord) (name : string) : option fval :=
  if String.eqb name "time" then Some (FTime (r_time r))
  else if String.eqb name "level" then Some (FStr (r_level r))
  else if String.eqb name "name" then Some (FStr (r_name r))
  else if String.eqb name "function" then Some (FStr (r_function r))
  else if String.eqb name "line" then Some (FNum (r_line r))
  else if String.eqb name "message" then Some (FStr (r_message r))
  else None.

(** A record as a sink with format [tpl] writes it. *)
Definition render_record (tpl : string) (r : LogRecord) : option string :=
  render_with (record_field r) tpl.

(** The name of the file a path template denotes at time [t]; [time] is
    the only key of a path template. *)
Definition render_path (tpl : string) (t : datetime) : option string :=
  render_with (fun n => if String.eqb n "time" then Some (FTime t) else None) tpl.

(** ** Dispatch of a record to the registered sinks *)

(** Modelled from the spec: the severities of the facade's emit
    operations (debug, info, warning, error, critical), in that order;
    the dispatch loop is loguru's and absent from the sources.  The
    numbers are the ones loguru documents for these names. *)
Definition level_no (name : string) : option nat :=
  if String.eqb name "DEBUG" then Some 10
  else if String.eqb name "INFO" then Some 20
  else if String.eqb name "WARNING" then Some 30
  else if String.eqb name "ERROR" then Some 40
  else if String.eqb name "CRITICAL" then Some 50
  else None.

(** Modelled from the spec: the severity threshold a sink was registered
    with, from the [level] argument of its [add] call. *)
Definition threshold (h : handler) : option nat :=
  match kwarg "level" h with
  | Some (VStr n) => level_no n
  | Some (VInt z) => if (0 <=? z)%Z then Some (Z.to_nat z) else None
  | _ => None
  end.

(** Modelled from the spec: a sink is skipped when its threshold exceeds
    the record's severity. *)
Definition accepts (h : handler) (r : LogRecord) : bool :=
  match threshold h with
  | Some t => (t <=? r_level_no r)%nat
  | None => false
  end.

Definition sink_output (w : world) (id : nat) : list LogRecord :=
  default [] (outputs w !! id).

Definition deliver (r : LogRecord) (o : gmap nat (list LogRecord))
  (ih : nat * handler) : gmap nat (list LogRecord) :=
  if accepts (snd ih) r
  then <[fst ih := (default [] (o !! fst ih) ++ [r])%list]> o
  else o.

(** Modelled from the spec: for each emission the facade iterates the
    registered sinks, skips those whose threshold exceeds the record's
    severity and dispatches to the remainder. *)
Definition emit (r : LogRecord) (w : world) : world :=
  set_outputs (List.fold_left (deliver r) (handlers w) (outputs w)) w.

Definition emit_all (rs : list LogRecord) (w : world) : world :=
  List.fold_left (fun w r => emit r w) rs w.

(** ** The rotation and compression policy of the file sink *)

Module Policy.

Definition day : Z := 86400.

(** Modelled from the spec: a rotation boundary is a time of day,
    written [HH:MM]; the result is in seconds after midnight. *)
Definition parse_time_of_day (s : string) : option Z :=
  match s with
  | String h1 (String h2 (String c (String m1 (String m2 EmptyString)))) =>
      match digit_value h1, digit_value h2, digit_value m1, digit_value m2 with
      | Some a, Some b, Some x, Some y =>
          let h := 10 * a + b in
          let m := 10 * x + y in
          if Ascii.eqb c ":" && (h <? 24)%nat && (m <? 60)%nat
          then Some (Z.of_nat (h * 3600 + m * 60)) else None
      | _, _, _, _ => None
      end
  | _ => None
  end.

(** Modelled from the spec: a retention duration, written [N days]. *)
Definition parse_days (s : string) : option Z :=
  match split_on " " s "" with
  | [n; unit] =>
      if negb (String.eqb n "") && String.eqb unit "days"
      then option_map Z.of_nat (parse_nat n) else None
  | _ => None
  end.

(** Modelled from the spec: the first instant after [t0] at which the
    clock shows the time of day [tod]; times are in seconds. *)
Definition next_boundary (tod t0 : Z) : Z :=
  if (t0 mod day <? tod)%Z then (t0 / day * day + tod)%Z
  else ((t0 / day + 1) * day + tod)%Z.

Inductive file_body :=
| Uncompressed (bytes : string)
| Archive (members : list (string * string)).

(** Modelled from the spec: one physical log file: its path, creation
    time, open or closed state ([lf_rotated] is the rotation boundary at
    which it stopped being the active file) and compression state. *)
Record LogFileDescriptor := mkFile {
  lf_path : string;
  lf_created : Z;
  lf_rotated : option Z;
  lf_body : file_body }.

Record FileSink := mkSink {
  active : LogFileDescriptor;
  closed : list LogFileDescriptor }.

Definition newline : string := String (ascii_of_nat 10) "".

Definition append_line (line : string) (f : LogFileDescriptor)
  : LogFileDescriptor :=
  match lf_body f with
  | Uncompressed b =>
      mkFile (lf_path f) (lf_created f) (lf_rotated f) (Uncompressed (b ++ line ++ newline))
  | Archive _ => f
  end.

(** Modelled from the spec: the boundary is crossed once the clock has
    reached the first boundary after the active file was opened. *)
Definition crossed (tod now : Z) (f : LogFileDescriptor) : bool :=
  (next_boundary tod (lf_created f) <=? now)%Z.

(** Modelled from the spec: on each write the engine checks whether the
    boundary was crossed since the active file was opened; if so it
    closes the active file and opens a new one named for the current
    date, and only then appends the line.  [name_of] gives the file
    name the path template denotes at a time. *)
Definition write (tod : Z) (name_of : Z -> string) (now : Z)
  (line : string) (s : FileSink) : FileSink :=
  if crossed tod now (active s) then
    let old := active s in
    let closed_file :=
      mkFile (lf_path old) (lf_created old)
             (Some (next_boundary tod (lf_created old))) (lf_body old) in
    mkSink (append_line line (mkFile (name_of now) now None (Uncompressed "")))
           (closed_file :: closed s)
  else mkSink (append_line line (active s)) (closed s).

(** A run of writes, each with the wall-clock time at which it happens. *)
Fixpoint run (tod : Z) (name_of : Z -> string) (ws : list (Z * string))
  (s : FileSink) : FileSink :=
  match ws with
  | [] => s
  | (now, line) :: ws' => run tod name_of ws' (write tod name_of now line s)
  end.

Fixpoint lines_of (ws : list (Z * string)) : string :=
  match ws with
  | [] => ""
  | (_, line) :: ws' => line ++ newline ++ lines_of ws'
  end.








(** The policy the file sink was registered with: rotation boundary,
    compression delay and retention, read off the [add] arguments. *)
Definition rotation_of (h : handler) : option Z :=
  match kwarg "rotation" h with
  | Some (VStr s) => parse_time_of_day s
  | _ => None
  end.

Definition compression_delay_of (h : handler) : option Z :=
  match kwarg "compression" h, kwarg "compression_delay" h with
  | Some (VStr z), Some (VInt d) =>
      if String.eqb z "zip" then Some d else None
  | _, _ => None
  end.

Definition retention_of (h : handler) : option Z :=
  match kwarg "retention" h with
  | Some (VStr s) => parse_days s
  | _ => None
  end.

End Policy.

(** ** Inputs of the examples *)

(** A loguru attribute table for the examples: the emit operations the
    module docstring and the specification name. *)
Definition example_loguru_has (name : string) : bool :=
  List.existsb (String.eqb name) ["debug"; "info"; "warning"; "error"; "critical"].

(** A fresh process: no sink registered, nothing on disk. *)
Definition example_world : world := mkWorld [] 0 ∅ ∅.

(** The attributes of a subclass that supplies what the class body leaves
    out: [logs_dir = Path("var/logs")] and [app_name = "app"]. *)
Definition example_attrs : gmap string value :=
  <["logs_dir" := VPath (parse_path "var/logs")]> (<["app_name" := VStr "app"]> ∅).

(** ** The class [LoggerWrapper] *)

Section LoggerWrapper.

(** [APP_NAME] and [LOGS_PATH] are imported from [src.config]; the
    modules are not part of the sources, so both are parameters. *)
Variable APP_NAME : string.
Variable LOGS_PATH : string.

(** The attribute names the loguru logger object answers to, besides
    [add] and [remove] which the class itself calls.  The loguru package
    is an external dependency, so the table is a parameter. *)
Variable loguru_has : string -> bool.

Definition FILE_FORMAT : string :=
  "{time:YYYY-MM-DD HH:mm:ss.SSS} | " ++
  "{level: <8} | " ++
  "{name: <35} | {function: <20} | {line: >4} | " ++
  "{message}".

Definition CONSOLE_FORMAT : string :=
  "<green>{time:HH:mm:ss}</green> | " ++
  "<level>{level: <8}</level> | " ++
  "<cyan>{name}</cyan>:<cyan>{function}</cyan>:<cyan>{line}</cyan> - " ++
  "<level>{message}</level>".

(** The class body, in source order. *)
Definition class_body : list (string * value) :=
  [ ("DEFAULT_APP_NAME", VStr APP_NAME);
    ("DEFAULT_LOGS_DIR", VPath (parse_path LOGS_PATH));
    ("DEFAULT_LEVEL_FILE", VStr "DEBUG");
    ("DEFAULT_LEVEL_CONSOLE", VStr "INFO");
    ("DEFAULT_RETENTION", VStr "45 days");
    ("DEFAULT_ROTATION", VStr "00:00");
    ("DEFAULT_COMPRESSION_DELAY", VInt 7);
    ("DEFAULT_ENQUEUE", VBool true);
    ("FILE_FORMAT", VStr FILE_FORMAT);
    ("CONSOLE_FORMAT", VStr CONSOLE_FORMAT);
    ("__init__", VMethod "__init__");
    ("_ensure_logs_directory", VMethod "_ensure_logs_directory");
    ("_configure_file_handler", VMethod "_configure_file_handler");
    ("_configure_console_handler", VMethod "_configure_console_handler");
    ("__getattr__", VMethod "__getattr__") ].

(** Attributes every class has without writing them: those the [class]
    statement adds and those inherited from [object]. *)
Definition object_attrs : list string :=
  [ "__module__"; "__qualname__"; "__doc__"; "__dict__"; "__weakref__";
    "__class__"; "__new__"; "__repr__"; "__str__"; "__hash__"; "__eq__";
    "__ne__"; "__lt__"; "__le__"; "__gt__"; "__ge__"; "__format__";
    "__getattribute__"; "__setattr__"; "__delattr__"; "__dir__";
    "__sizeof__"; "__reduce__"; "__reduce_ex__"; "__getstate__";
    "__init_subclass__"; "__subclasshook__" ].

Definition class_attr (name : string) : option value :=
  match kwarg name class_body with
  | Some v => Some v
  | None =>
      if List.existsb (String.eqb name) object_attrs
      then Some (VBuiltin name) else None
  end.

(** Ordinary lookup of [self.name]: the attributes of the object, then
    those of the class. *)
Definition lookup_normal (self : gmap string value) (name : string)
  : option value :=
  match self !! name with
  | Some v => Some v
  | None => class_attr name
  end.

Definition loguru_attr (name : string) : bool :=
  String.eqb name "add" || String.eqb name "remove" || loguru_has name.

(** [getattr(v, name)] for the value held in [self.logger]. *)
Definition getattr_value (v : value) (name : string) : result value :=
  match v with
  | VLoguru =>
      if loguru_attr name then Ok (VLoguruAttr name)
      else Raise (AttributeError "Logger" name)
  | _ => Raise (AttributeError (type_name v) name)
  end.

(** [self.name].  When ordinary lookup fails Python calls
    [__getattr__(self, name)], whose body [getattr(self.logger, name)]
    looks up [self.logger] in the same way; [fuel] is the depth of
    calls left before the interpreter raises [RecursionError]. *)
Fixpoint getattr_fuel (fuel : nat) (self : gmap string value) (name : string)
  : result value :=
  match lookup_normal self name with
  | Some v => Ok v
  | None =>
      match fuel with
      | 0 => Raise RecursionError
      | S fuel' =>
          match getattr_fuel fuel' self "logger" with
          | Ok target => getattr_value target name
          | Raise e => Raise e
          end
      end
  end.

Definition recursion_limit : nat := 1000.

Definition getattr_self (self : gmap string value) (name : string)
  : result value :=
  getattr_fuel recursion_limit self name.

Definition getattr (name : string) : M value :=
  fun s => (s, getattr_self (snd s) name).

(** *** Calls on the loguru logger *)

(** Modelled from the spec: loguru is an external collaborator whose code
    is not in the sources.  [logger.remove()] without a handler id
    unregisters every sink (the constructor calls it to drop the standard
    handler). *)
Definition logger_remove : M unit :=
  fun s => ((set_handlers [] (next_id (fst s)) (fst s), snd s), Ok tt).

(** Modelled from the spec: [logger.add(...)] of the same collaborator
    registers one more sink with the given arguments and returns its
    fresh id. *)
Definition logger_add (h : handler) : M nat :=
  fun s =>
    let w := fst s in
    ((set_handlers (handlers w ++ [(next_id w, h)])%list (S (next_id w)) w, snd s),
     Ok (next_id w)).

(** [self.logger.meth(...)]: evaluate [self.logger], then call. *)
Definition call_logger {A} (meth : string) (op : M A) : M A :=
  do l <- getattr "logger";
  match l with
  | VLoguru => op
  | v => raise (AttributeError (type_name v) meth)
  end.

(** *** The methods *)

Definition _ensure_logs_directory : M unit :=
  do d <- getattr "logs_dir";
  match d with
  | VPath p => lift_world (path_mkdir p)
  | v => raise (AttributeError (type_name v) "mkdir")
  end.

(** The arguments of the [logger.add] call for the file sink. *)
Definition file_kwargs (file_path : Path)
  (rotation retention delay level enqueue format : value) : handler :=
  [ ("sink", VStr (path_str file_path));
    ("rotation", rotation);
    ("retention", retention);
    ("compression", VStr "zip");
    ("compression_delay", delay);
    ("level", level);
    ("encoding", VStr "utf-8");
    ("enqueue", enqueue);
    ("backtrace", VBool true);
    ("diagnose", VBool false);
    ("format", format) ].

Definition _configure_file_handler : M unit :=
  do d <- getattr "logs_dir";
  do a <- getattr "app_name";
  match d with
  | VPath p =>
      let file_path := path_div p (format_value a ++ "_{time:YYYY-MM-DD}.log") in
      do rotation <- getattr "DEFAULT_ROTATION";
      do retention <- getattr "DEFAULT_RETENTION";
      do delay <- getattr "DEFAULT_COMPRESSION_DELAY";
      do level <- getattr "DEFAULT_LEVEL_FILE";
      do enqueue <- getattr "DEFAULT_ENQUEUE";
      do format <- getattr "FILE_FORMAT";
      call_logger "add"
        (logger_add (file_kwargs file_path rotation retention delay level enqueue format)) ;;
      ret tt
  | v => raise (TypeError ("unsupported operand type(s) for /: " ++ type_name v))
  end.

(** The arguments of the [logger.add] call for the console sink. *)
Definition console_kwargs (level format : value) : handler :=
  [ ("sink", VStderr);
    ("level", level);
    ("colorize", VBool true);
    ("format", format) ].

Definition _configure_console_handler : M unit :=
  do level <- getattr "DEFAULT_LEVEL_CONSOLE";
  do format <- getattr "CONSOLE_FORMAT";
  call_logger "add" (logger_add (console_kwargs level format)) ;;
  ret tt.

Definition __init__ : M unit :=
  setattr "logger" VLoguru ;;
  call_logger "remove" logger_remove ;;
  _ensure_logs_directory ;;
  _configure_file_handler ;;
  _configure_console_handler.

(** [LoggerWrapper()], or the call of a subclass that only adds class
    attributes: [attrs0] holds the attributes visible on the new object
    in front of the class body above (none for [LoggerWrapper] itself).
    The result is the final attribute dictionary of the instance. *)
Definition construct (attrs0 : gmap string value) (w : world)
  : world * result (gmap string value) :=
  match __init__ (w, attrs0) with
  | ((w', self), Ok tt) => (w', Ok self)
  | ((w', _), Raise e) => (w', Raise e)
  end.

(** What [self.name] evaluates to when ordinary lookup finds the name. *)
Definition attr_value (self : gmap string value) (name : string) : value :=
  default VNone (lookup_normal self name).

(** The sinks a constructor call registers for the log directory [p]
    and the application name [a], given the attributes of [self]. *)
Definition file_sink_of (self : gmap string value) (p : Path) (a : value)
  : handler :=
  file_kwargs (path_div p (format_value a ++ "_{time:YYYY-MM-DD}.log"))
    (attr_value self "DEFAULT_ROTATION")
    (attr_value self "DEFAULT_RETENTION")
    (attr_value self "DEFAULT_COMPRESSION_DELAY")
    (attr_value self "DEFAULT_LEVEL_FILE")
    (attr_value self "DEFAULT_ENQUEUE")
    (attr_value self "FILE_FORMAT").

Definition console_sink_of (self : gmap string value) : handler :=
  console_kwargs (attr_value self "DEFAULT_LEVEL_CONSOLE")
                 (attr_value self "CONSOLE_FORMAT").

(** No attribute in front of the class body shadows a name of the class
    body: the instance runs with the defaults of the class. *)
Definition shadows_none (attrs0 : gmap string value) : bool :=
  List.forallb
    (fun kv => match attrs0 !! fst kv with Some _ => false | None => true end)
    class_body.

(** The two sinks as the class body alone configures them. *)
Definition default_file_sink (p : Path) (a : value) : handler :=
  file_sink_of ∅ p a.

Definition default_console_sink : handler := console_sink_of ∅.

(** ** The record and file-name layouts, in the words of the specification *)






Fixpoint string_forallb (f : ascii -> bool) (s : string) : bool :=
  match s with
  | EmptyString => true
  | String c s' => f c && string_forallb f s'
  end.

(** A name that is one path component and plain text of a template: it
    has no slash and no brace. *)
Definition plain_name (s : string) : bool :=
  string_forallb
    (fun c => negb (Ascii.eqb c "/" || Ascii.eqb c "{" || Ascii.eqb c "}")) s.



(** The [k] low decimal digits of [n], most significant first. *)
Fixpoint digits (k : nat) (n : N) : string :=
  match k with
  | 0 => ""
  | S k' => digits k' (n / 10) ++ String (digit (n mod 10)) ""
  end.

Fixpoint pow10 (k : nat) : N :=
  match k with
  | 0 => 1
  | S k' => 10 * pow10 k'
  end.

(** The path template the constructor hands to the file sink. *)
Definition file_template (a : value) : string :=
  format_value a ++ "_{time:YYYY-MM-DD}.log".

(** ** The example run *)

(** The instance and the process after [example_attrs] is constructed in
    [example_world]. *)
Definition example_self : gmap string value :=
  <["logger" := VLoguru]> example_attrs.

Definition example_after : world :=
  mkWorld
    [ (0, file_kwargs (path_div (parse_path "var/logs") "app_{time:YYYY-MM-DD}.log")
            (VStr "00:00") (VStr "45 days") (VInt 7) (VStr "DEBUG") (VBool true)
            (VStr FILE_FORMAT));
      (1, console_kwargs (VStr "INFO") (VStr CONSOLE_FORMAT)) ]
    2
    (<[(false, ["logs"; "var"]) := Dir true]> (<[(false, ["var"]) := Dir true]> ∅))
    ∅.

Definition example_record (level : string) (no : nat) (message : string) : LogRecord :=
  mkRecord (mkDatetime 2026 11 4 9 5 7 123456) level no "src.main" "run" 42 message.

Definition example_records : list LogRecord :=
  [ example_record "TRACE" 5 "t"; example_record "DEBUG" 10 "d";
    example_record "INFO" 20 "i"; example_record "ERROR" 40 "e" ].

(** ** Further layouts and tables *)



(** The arguments of the two [add] calls that are read from attributes
    of [self], with the attribute each one is read from. *)
Definition file_attr_args : list (string * string) :=
  [ ("rotation", "DEFAULT_ROTATION"); ("retention", "DEFAULT_RETENTION");
    ("compression_delay", "DEFAULT_COMPRESSION_DELAY");
    ("level", "DEFAULT_LEVEL_FILE"); ("enqueue", "DEFAULT_ENQUEUE");
    ("format", "FILE_FORMAT") ].

Definition console_attr_args : list (string * string) :=
  [ ("level", "DEFAULT_LEVEL_CONSOLE"); ("format", "CONSOLE_FORMAT") ].

(** The value of attribute [name] on an instance built over [attrs0]:
    the attribute in front of the class body if there is one, else the
    one of the class body. *)
Definition effective (attrs0 : gmap string value) (name : string) : value :=
  match attrs0 !! name with
  | Some v => v
  | None => default VNone (class_attr name)
  end.

(** The file-system key of a path. *)
Definition path_key (p : Path) : fs_key := (p_abs p, List.rev (p_parts p)).

(** A subclass that also raises the console threshold to ERROR, and the
    process after it is constructed in [example_world]. *)
Definition example_override_attrs : gmap string value :=
  <["DEFAULT_LEVEL_CONSOLE" := VStr "ERROR"]> example_attrs.

Definition example_override_after : world :=
  mkWorld
    [ (0, file_kwargs (path_div (parse_path "var/logs") "app_{time:YYYY-MM-DD}.log")
            (VStr "00:00") (VStr "45 days") (VInt 7) (VStr "DEBUG") (VBool true)
            (VStr FILE_FORMAT));
      (1, console_kwargs (VStr "ERROR") (VStr CONSOLE_FORMAT)) ]
    2 (fs example_after) ∅.

Arguments getattr_self : simpl never.
Arguments recursion_limit : simpl never.

(** ** Attribute lookup *)
Lemma getattr_fuel_found fuel self name v :
  lookup_normal self name = Some v -> getattr_fuel fuel self name = Ok v.
Proof. intros H. destruct fuel; simpl; rewrite H; reflexivity. Qed.

Lemma getattr_fuel_fallback fuel self name target :
  lookup_normal self name = None ->
  lookup_normal self "logger" = Some target ->
  getattr_fuel (S fuel) self name = getattr_value target name.
Proof.
  intros Hn Hl. simpl. rewrite Hn.
  rewrite (getattr_fuel_found fuel self "logger" target Hl). reflexivity.
Qed.

Lemma getattr_fuel_no_logger fuel self name :
  lookup_normal self name = None ->
  lookup_normal self "logger" = None ->
  getattr_fuel fuel self name = Raise RecursionError.
Proof.
  intros Hn Hl. revert name Hn. induction fuel as [|fuel IH]; intros name Hn; simpl; rewrite Hn.
  - reflexivity.
  - rewrite (IH "logger" Hl). reflexivity.
Qed.

Lemma recursion_limit_S : recursion_limit = S 999.
Proof. reflexivity. Qed.

Lemma getattr_self_found self name v :
  lookup_normal self name = Some v -> getattr_self self name = Ok v.
Proof. apply getattr_fuel_found. Qed.

Lemma getattr_self_fallback self name target :
  lookup_normal self name = None ->
  lookup_normal self "logger" = Some target ->
  getattr_self self name = getattr_value target name.
Proof.
  intros. unfold getattr_self. rewrite recursion_limit_S.
  now apply getattr_fuel_fallback.
Qed.

Lemma getattr_self_class self name :
  is_Some (class_attr name) ->
  getattr_self self name = Ok (attr_value self name).
Proof.
  intros [c Hc]. apply getattr_self_found.
  unfold attr_value, lookup_normal. destruct (self !! name); [reflexivity|].
  rewrite Hc. reflexivity.
Qed.

Lemma getattr_self_logger self :
  self !! "logger" = Some VLoguru -> getattr_self self "logger" = Ok VLoguru.
Proof.
  intros H. apply getattr_self_found. unfold lookup_normal. now rewrite H.
Qed.

Lemma ensure_run w self :
  _ensure_logs_directory (w, self) =
  match getattr_self self "logs_dir" with
  | Ok (VPath p) =>
      let '(f, r) := mkdir_parents (p_abs p) (List.rev (p_parts p)) (fs w) in
      ((set_fs f w, self), r)
  | Ok v => ((w, self), Raise (AttributeError (type_name v) "mkdir"))
  | Raise e => ((w, self), Raise e)
  end.
Proof.
  unfold _ensure_logs_directory, bind, getattr, raise, lift_world, path_mkdir. simpl.
  destruct (getattr_self self "logs_dir") as [[]|]; try reflexivity.
  destruct (mkdir_parents _ _ _); reflexivity.
Qed.

Lemma configure_file_run w self :
  self !! "logger" = Some VLoguru ->
  _configure_file_handler (w, self) =
  match getattr_self self "logs_dir" with
  | Raise e => ((w, self), Raise e)
  | Ok d =>
      match getattr_self self "app_name" with
      | Raise e => ((w, self), Raise e)
      | Ok a =>
          match d with
          | VPath p =>
              ((set_handlers (handlers w ++ [(next_id w, file_sink_of self p a)])%list
                             (S (next_id w)) w, self), Ok tt)
          | v => ((w, self),
                  Raise (TypeError ("unsupported operand type(s) for /: " ++ type_name v)))
          end
      end
  end.
Proof.
  intros Hl.
  unfold _configure_file_handler, bind, getattr, raise, call_logger, logger_add, ret. simpl.
  destruct (getattr_self self "logs_dir") as [d|]; [|reflexivity].
  destruct (getattr_self self "app_name") as [a|]; [|reflexivity].
  destruct d; try reflexivity.
  rewrite !getattr_self_class by (eexists; reflexivity).
  unfold bind, getattr. simpl. rewrite (getattr_self_logger self Hl). reflexivity.
Qed.

Lemma configure_console_run w self :
  self !! "logger" = Some VLoguru ->
  _configure_console_handler (w, self) =
  ((set_handlers (handlers w ++ [(next_id w, console_sink_of self)])%list
                 (S (next_id w)) w, self), Ok tt).
Proof.
  intros Hl.
  unfold _configure_console_handler, bind, getattr, raise, call_logger, logger_add, ret. simpl.
  rewrite !getattr_self_class by (eexists; reflexivity).
  unfold bind, getattr. simpl. rewrite (getattr_self_logger self Hl). reflexivity.
Qed.

(** ** The constructor *)

Lemma init_run w attrs0 :
  __init__ (w, attrs0) =
  match _ensure_logs_directory
          (set_handlers [] (next_id w) w, <["logger" := VLoguru]> attrs0) with
  | (s2, Ok _) =>
      match _configure_file_handler s2 with
      | (s3, Ok _) => _configure_console_handler s3
      | (s3, Raise e) => (s3, Raise e)
      end
  | (s2, Raise e) => (s2, Raise e)
  end.
Proof.
  unfold __init__, call_logger, bind, setattr, getattr, logger_remove. simpl.
  rewrite getattr_self_logger by apply lookup_insert_eq.
  destruct (_ensure_logs_directory _) as [s2 [[]|e]]; [|reflexivity].
  destruct (_configure_file_handler s2) as [s3 [[]|e]]; reflexivity.
Qed.

Lemma construct_ok_inv attrs0 w w' self :
  construct attrs0 w = (w', Ok self) ->
  self = <["logger" := VLoguru]> attrs0 /\
  exists p a f',
    getattr_self self "logs_dir" = Ok (VPath p) /\
    getattr_self self "app_name" = Ok a /\
    mkdir_parents (p_abs p) (List.rev (p_parts p)) (fs w) = (f', Ok tt) /\
    w' = mkWorld [(next_id w, file_sink_of self p a);
                  (S (next_id w), console_sink_of self)]
                 (S (S (next_id w))) f' (outputs w).
Proof.
  unfold construct. rewrite init_run, ensure_run.
  set (s1 := <["logger" := VLoguru]> attrs0).
  assert (Hl : s1 !! "logger" = Some VLoguru) by apply lookup_insert_eq.
  destruct (getattr_self s1 "logs_dir") as [d|e] eqn:Hd; [|discriminate].
  destruct d as [| | | |p| | | | |]; try discriminate.
  destruct (mkdir_parents _ _ _) as [f' [[]|e]] eqn:Hm; [|discriminate].
  rewrite configure_file_run by exact Hl. rewrite Hd.
  destruct (getattr_self s1 "app_name") as [a|e] eqn:Ha; [|discriminate].
  rewrite configure_console_run by exact Hl.
  intros H. injection H as <- <-. split; [reflexivity|].
  exists p, a, f'. repeat split; try assumption.
Qed.

Lemma construct_ok_intro attrs0 w p a f' :
  let self := <["logger" := VLoguru]> attrs0 in
  getattr_self self "logs_dir" = Ok (VPath p) ->
  getattr_self self "app_name" = Ok a ->
  mkdir_parents (p_abs p) (List.rev (p_parts p)) (fs w) = (f', Ok tt) ->
  construct attrs0 w =
  (mkWorld [(next_id w, file_sink_of self p a);
            (S (next_id w), console_sink_of self)]
           (S (S (next_id w))) f' (outputs w), Ok self).
Proof.
  intros self Hd Ha Hm.
  assert (Hl : self !! "logger" = Some VLoguru) by apply lookup_insert_eq.
  unfold construct. rewrite init_run, ensure_run. fold self. rewrite Hd.
  cbn [fs set_handlers]. rewrite Hm.
  rewrite configure_file_run by exact Hl. rewrite Hd, Ha.
  rewrite configure_console_run by exact Hl. reflexivity.
Qed.

Lemma construct_raise_lookup attrs0 w e :
  getattr_self (<["logger" := VLoguru]> attrs0) "logs_dir" = Raise e ->
  construct attrs0 w = (set_handlers [] (next_id w) w, Raise e).
Proof.
  intros H. unfold construct. rewrite init_run, ensure_run, H. reflexivity.
Qed.

(** For [LoggerWrapper] itself nothing is visible in front of the class
    body, and the class body has no [logs_dir]: the lookup is answered
    by the loguru logger. *)
Lemma plain_logs_dir_lookup :
  let self := <["logger" := VLoguru]> (∅ : gmap string value) in
  lookup_normal self "logs_dir" = None /\
  getattr_self self "logs_dir" = getattr_value VLoguru "logs_dir".
Proof.
  intros self.
  assert (Hn : lookup_normal self "logs_dir" = None).
  { unfold lookup_normal, self.
    rewrite lookup_insert_ne by discriminate. rewrite lookup_empty. reflexivity. }
  split; [exact Hn|].
  apply getattr_self_fallback; [exact Hn|].
  unfold lookup_normal, self. now rewrite lookup_insert_eq.
Qed.

Lemma plain_construct_raises w :
  loguru_has "logs_dir" = false ->
  construct ∅ w =
  (set_handlers [] (next_id w) w, Raise (AttributeError "Logger" "logs_dir")).
Proof.
  intros H. apply construct_raise_lookup.
  destruct plain_logs_dir_lookup as [_ ->].
  unfold getattr_value, loguru_attr. rewrite H. reflexivity.
Qed.

(** C1: every call [LoggerWrapper()] evaluates [self.logs_dir], which
    neither the instance nor the class defines (the class has
    [DEFAULT_LOGS_DIR] only); the lookup is forwarded by [__getattr__]
    to the loguru logger, and when that has no such attribute either the
    call raises [AttributeError] with no sink registered. *)
Theorem C1_construction_raises_AttributeError (w : world) :
  loguru_has "logs_dir" = false ->
  let self := <["logger" := VLoguru]> (∅ : gmap string value) in
  lookup_normal self "logs_dir" = None /\
  class_attr "DEFAULT_LOGS_DIR" = Some (VPath (parse_path LOGS_PATH)) /\
  getattr_self self "logs_dir" = getattr_value VLoguru "logs_dir" /\
  construct ∅ w =
    (set_handlers [] (next_id w) w, Raise (AttributeError "Logger" "logs_dir")) /\
  handlers (fst (construct ∅ w)) = [].
Proof.
  intros H self.
  destruct plain_logs_dir_lookup as [Hn Hf].
  repeat split; try assumption; try reflexivity.
  - now apply plain_construct_raises.
  - rewrite plain_construct_raises by exact H. reflexivity.
Qed.

(** C7: on an instance whose [logger] attribute the constructor has set,
    every name that ordinary lookup does not find is answered by the
    loguru logger, with that logger's own result; the five emit
    operations are not defined by the class, so they are the loguru
    logger's whenever it has them. *)
Theorem C7_unknown_attributes_delegate (attrs0 : gmap string value) :
  let self := <["logger" := VLoguru]> attrs0 in
  (forall name,
      lookup_normal self name = None ->
      getattr_self self name = getattr_value VLoguru name) /\
  (forall name,
      In name ["debug"; "info"; "warning"; "error"; "critical"] ->
      class_attr name = None /\
      (attrs0 !! name = None ->
       loguru_has name = true ->
       getattr_self self name = Ok (VLoguruAttr name))).
Proof.
  intros self.
  assert (Hl : lookup_normal self "logger" = Some VLoguru).
  { unfold lookup_normal, self. now rewrite lookup_insert_eq. }
  assert (Hd : forall name, lookup_normal self name = None ->
               getattr_self self name = getattr_value VLoguru name).
  { intros name Hn. now apply getattr_self_fallback. }
  split; [exact Hd|].
  intros name Hin.
  assert (Hne : "logger" <> name /\ class_attr name = None).
  { simpl in Hin.
    repeat destruct Hin as [<- | Hin]; try (split; [discriminate|reflexivity]).
    contradiction. }
  destruct Hne as [Hne Hc]. split; [exact Hc|].
  intros Ha Hh. rewrite Hd.
  - unfold getattr_value, loguru_attr. rewrite Hh, !orb_true_r. reflexivity.
  - unfold lookup_normal, self. rewrite lookup_insert_ne, Ha; [exact Hc|exact Hne].
Qed.

(** The constructor empties the sink table on every path, also when it
    goes on to raise. *)
Lemma construct_drops_old_sinks attrs0 w i h :
  (forall j h', In (j, h') (handlers w) -> j < next_id w) ->
  In (i, h) (handlers w) ->
  ~ In i (handler_ids (fst (construct attrs0 w))).
Proof.
  intros Hwf Hin. apply Hwf in Hin.
  unfold construct. rewrite init_run, ensure_run.
  set (s1 := <["logger" := VLoguru]> attrs0).
  assert (Hl : s1 !! "logger" = Some VLoguru) by apply lookup_insert_eq.
  destruct (getattr_self s1 "logs_dir") as [d|e] eqn:Hd; [|simpl; tauto].
  destruct d as [| | | |p| | | | |]; try (simpl; tauto).
  destruct (mkdir_parents _ _ _) as [f' [[]|e]] eqn:Hm; [|simpl; tauto].
  rewrite configure_file_run by exact Hl. rewrite Hd.
  destruct (getattr_self s1 "app_name") as [a|e] eqn:Ha; [|simpl; tauto].
  rewrite configure_console_run by exact Hl.
  unfold handler_ids. simpl. lia.
Qed.

(** C10: an instance holds the one loguru logger; the constructor empties
    its sink table before registering, so after a successful call the
    table holds exactly the file sink and the console sink of that call,
    and after any later constructor call, successful or not, the sinks of
    the earlier instance are gone. *)
Theorem C10_one_global_sink_table
  (attrs1 : gmap string value) (w w1 : world) (self1 : gmap string value) :
  construct attrs1 w = (w1, Ok self1) ->
  self1 !! "logger" = Some VLoguru /\
  (exists p a,
      handlers w1 = [(next_id w, file_sink_of self1 p a);
                     (S (next_id w), console_sink_of self1)]) /\
  forall attrs2 : gmap string value,
    (forall i, In i (handler_ids w1) ->
               ~ In i (handler_ids (fst (construct attrs2 w1)))) /\
    (forall w2 self2,
        construct attrs2 w1 = (w2, Ok self2) ->
        self2 !! "logger" = Some VLoguru /\
        exists p a,
          handlers w2 = [(next_id w1, file_sink_of self2 p a);
                         (S (next_id w1), console_sink_of self2)]).
Proof.
  intros H1.
  apply construct_ok_inv in H1 as [-> (p1 & a1 & f1 & _ & _ & _ & ->)].
  split; [apply lookup_insert_eq|]. split; [exists p1, a1; reflexivity|].
  intros attrs2. split.
  - intros i Hi. unfold handler_ids in Hi. apply List.in_map_iff in Hi as ([j h] & <- & Hin).
    apply (construct_drops_old_sinks attrs2 _ j h); [|exact Hin].
    cbn [handlers next_id]. intros k h' [E|[E|[]]]; injection E as <- _; lia.
  - intros w2 self2 H2.
    apply construct_ok_inv in H2 as [-> (p2 & a2 & f2 & _ & _ & _ & ->)].
    split; [apply lookup_insert_eq|]. exists p2, a2. reflexivity.
Qed.

(** ** Defaults and dispatch *)

Lemma shadows_none_lookup attrs0 k v :
  shadows_none attrs0 = true ->
  kwarg k class_body = Some v ->
  attrs0 !! k = None.
Proof.
  unfold shadows_none. rewrite forallb_forall. intros Hall Hk.
  assert (Hin : exists v', In (k, v') class_body).
  { revert Hk. generalize class_body. intros l. induction l as [|[k' v'] l IH]; simpl.
    - discriminate.
    - destruct (String.eqb_spec k k') as [->|].
      + intros _. exists v'. now left.
      + intros H. destruct (IH H) as [v'' Hv]. exists v''. now right. }
  destruct Hin as [v' Hin]. specialize (Hall _ Hin). simpl in Hall.
  destruct (attrs0 !! k); [discriminate|reflexivity].
Qed.

Lemma attr_value_default attrs0 k v :
  shadows_none attrs0 = true ->
  kwarg k class_body = Some v ->
  attr_value (<["logger" := VLoguru]> attrs0) k = v.
Proof.
  intros Hs Hk. unfold attr_value, lookup_normal, class_attr.
  assert (k <> "logger").
  { intros ->. discriminate Hk. }
  rewrite lookup_insert_ne by congruence.
  rewrite (shadows_none_lookup _ _ _ Hs Hk), Hk. reflexivity.
Qed.

Lemma default_sinks attrs0 p a :
  shadows_none attrs0 = true ->
  file_sink_of (<["logger" := VLoguru]> attrs0) p a = default_file_sink p a /\
  console_sink_of (<["logger" := VLoguru]> attrs0) = default_console_sink.
Proof.
  intros Hs. unfold default_file_sink, default_console_sink, file_sink_of, console_sink_of.
  rewrite !(attr_value_default attrs0 _ _ Hs) by reflexivity.
  split; reflexivity.
Qed.

(** A successful constructor call of an instance that shadows nothing
    leaves exactly the two default sinks registered. *)
Lemma construct_default_sinks attrs0 w w' self :
  construct attrs0 w = (w', Ok self) ->
  shadows_none attrs0 = true ->
  exists p a,
    getattr_self self "logs_dir" = Ok (VPath p) /\
    getattr_self self "app_name" = Ok a /\
    handlers w' = [(next_id w, default_file_sink p a);
                   (S (next_id w), default_console_sink)].
Proof.
  intros Hc Hs.
  apply construct_ok_inv in Hc as [-> (p & a & f' & Hd & Ha & _ & ->)].
  exists p, a. destruct (default_sinks attrs0 p a Hs) as [-> ->].
  repeat split; assumption.
Qed.

Lemma fold_deliver_lookup r hs o i :
  default [] (List.fold_left (deliver r) hs o !! i) =
  (default [] (o !! i) ++
   List.flat_map
     (fun ih => if Nat.eqb (fst ih) i && accepts (snd ih) r then [r] else []) hs)%list.
Proof.
  revert o. induction hs as [|[j h] hs IH]; intros o; simpl.
  - now rewrite app_nil_r.
  - rewrite IH. unfold deliver. simpl.
    destruct (accepts h r); simpl.
    + destruct (Nat.eqb_spec j i) as [->|Hne]; simpl.
      * rewrite lookup_insert_eq. simpl. now rewrite <- app_assoc.
      * rewrite lookup_insert_ne by exact Hne. reflexivity.
    + rewrite andb_false_r. reflexivity.
Qed.

Lemma handlers_emit r w : handlers (emit r w) = handlers w.
Proof. reflexivity. Qed.

Lemma handlers_emit_all rs w : handlers (emit_all rs w) = handlers w.
Proof.
  revert w. induction rs as [|r rs IH]; intros w; simpl; [reflexivity|].
  unfold emit_all in IH. rewrite IH. apply handlers_emit.
Qed.

Lemma sink_output_emit r w i j hi hj :
  i <> j ->
  handlers w = [(i, hi); (j, hj)] ->
  sink_output (emit r w) i =
    (sink_output w i ++ if accepts hi r then [r] else [])%list /\
  sink_output (emit r w) j =
    (sink_output w j ++ if accepts hj r then [r] else [])%list.
Proof.
  intros Hne Hw. unfold sink_output, emit. cbn [outputs set_outputs].
  rewrite !fold_deliver_lookup, Hw. cbn [List.flat_map fst snd].
  rewrite !Nat.eqb_refl.
  replace (Nat.eqb j i) with false by (symmetry; apply Nat.eqb_neq; congruence).
  replace (Nat.eqb i j) with false by (symmetry; apply Nat.eqb_neq; congruence).
  cbn [andb]. rewrite !app_nil_r. split; reflexivity.
Qed.

(** What one sink of a two-sink table receives from a run of emissions. *)
Lemma sink_output_emit_all rs w i j hi hj :
  i <> j ->
  handlers w = [(i, hi); (j, hj)] ->
  sink_output (emit_all rs w) i =
    (sink_output w i ++ List.filter (accepts hi) rs)%list /\
  sink_output (emit_all rs w) j =
    (sink_output w j ++ List.filter (accepts hj) rs)%list.
Proof.
  intros Hne. revert w. induction rs as [|r rs IH]; intros w Hw.
  - simpl. now rewrite !app_nil_r.
  - assert (Hw' : handlers (emit r w) = [(i, hi); (j, hj)])
      by (rewrite handlers_emit; exact Hw).
    change (emit_all (r :: rs) w) with (emit_all rs (emit r w)).
    destruct (IH _ Hw') as [-> ->].
    destruct (sink_output_emit r w i j hi hj Hne Hw) as [-> ->].
    cbn [List.filter].
    destruct (accepts hi r), (accepts hj r);
      rewrite ?app_nil_r, <- ?app_assoc; split; reflexivity.
Qed.

Lemma accepts_default_file p a r :
  accepts (default_file_sink p a) r = (10 <=? r_level_no r)%nat.
Proof. reflexivity. Qed.

Lemma accepts_default_console r :
  accepts default_console_sink r = (20 <=? r_level_no r)%nat.
Proof. reflexivity. Qed.

(** C2: of the records emitted after a successful constructor call that
    runs with the class defaults, the file sink receives exactly those of
    severity DEBUG (10) or higher and the console sink exactly those of
    severity INFO (20) or higher, in emission order. *)
Theorem C2_threshold_filtering
  (attrs0 : gmap string value) (w w' : world) (self : gmap string value)
  (rs : list LogRecord) :
  construct attrs0 w = (w', Ok self) ->
  shadows_none attrs0 = true ->
  level_no "DEBUG" = Some 10 /\ level_no "INFO" = Some 20 /\
  (exists fh ch,
      handlers w' = [(next_id w, fh); (S (next_id w), ch)] /\
      threshold fh = level_no "DEBUG" /\ threshold ch = level_no "INFO") /\
  sink_output (emit_all rs w') (next_id w) =
    (sink_output w' (next_id w)
     ++ List.filter (fun r => (10 <=? r_level_no r)%nat) rs)%list /\
  sink_output (emit_all rs w') (S (next_id w)) =
    (sink_output w' (S (next_id w))
     ++ List.filter (fun r => (20 <=? r_level_no r)%nat) rs)%list.
Proof.
  intros Hc Hs.
  destruct (construct_default_sinks _ _ _ _ Hc Hs) as (p & a & _ & _ & Hh).
  split; [reflexivity|]. split; [reflexivity|].
  split.
  { exists (default_file_sink p a), default_console_sink.
    repeat split; [exact Hh]. }
  assert (Hne : next_id w <> S (next_id w)) by lia.
  destruct (sink_output_emit_all rs w' _ _ _ _ Hne Hh) as [-> ->].
  split; f_equal.
Qed.

(** C4: the class body gives the defaults DEBUG for the file sink, INFO
    for the console sink, a retention of 45 days, rotation at 00:00, a
    compression delay of 7 and the write queue switched on, and a
    constructor call that shadows none of them registers its sinks with
    exactly these. *)
Theorem C4_default_configuration
  (attrs0 : gmap string value) (w w' : world) (self : gmap string value) :
  construct attrs0 w = (w', Ok self) ->
  shadows_none attrs0 = true ->
  (class_attr "DEFAULT_LEVEL_FILE" = Some (VStr "DEBUG") /\
   class_attr "DEFAULT_LEVEL_CONSOLE" = Some (VStr "INFO") /\
   class_attr "DEFAULT_RETENTION" = Some (VStr "45 days") /\
   class_attr "DEFAULT_ROTATION" = Some (VStr "00:00") /\
   class_attr "DEFAULT_COMPRESSION_DELAY" = Some (VInt 7) /\
   class_attr "DEFAULT_ENQUEUE" = Some (VBool true)) /\
  exists fh ch,
    handlers w' = [(next_id w, fh); (S (next_id w), ch)] /\
    kwarg "level" fh = Some (VStr "DEBUG") /\
    kwarg "level" ch = Some (VStr "INFO") /\
    kwarg "retention" fh = Some (VStr "45 days") /\
    Policy.retention_of fh = Some 45%Z /\
    kwarg "rotation" fh = Some (VStr "00:00") /\
    Policy.rotation_of fh = Some 0%Z /\
    kwarg "compression_delay" fh = Some (VInt 7) /\
    Policy.compression_delay_of fh = Some 7%Z /\
    kwarg "enqueue" fh = Some (VBool true).
Proof.
  intros Hc Hs.
  destruct (construct_default_sinks _ _ _ _ Hc Hs) as (p & a & _ & _ & Hh).
  split; [repeat split|].
  exists (default_file_sink p a), default_console_sink.
  split; [exact Hh|]. repeat split.
Qed.

(** ** Strings *)

Lemma append_cons c (a b : string) : String c a ++ b = String c (a ++ b).
Proof. reflexivity. Qed.

Lemma append_nil_r (s : string) : s ++ "" = s.
Proof.
  induction s as [|c s IH]; [reflexivity|]. now rewrite append_cons, IH.
Qed.

Lemma append_assoc (a b c : string) : (a ++ b) ++ c = a ++ b ++ c.
Proof.
  induction a as [|x a IH]; [reflexivity|]. now rewrite !append_cons, IH.
Qed.

Lemma length_append (a b : string) :
  String.length (a ++ b) = String.length a + String.length b.
Proof.
  induction a as [|x a IH]; [reflexivity|]. rewrite append_cons. simpl. now rewrite IH.
Qed.




(** ** The file record format *)




Example render_record_example :
  render_record FILE_FORMAT
    (mkRecord (mkDatetime 2026 11 4 9 5 7 123456) "INFO" 20 "src.main" "run" 42 "hello")
  = Some "2026-11-04 09:05:07.123 | INFO     | src.main                            | run                  |   42 | hello".
Proof. vm_compute. reflexivity. Qed.


(** ** The file name *)

Lemma string_forallb_impl (f g : ascii -> bool) s :
  (forall c, f c = true -> g c = true) ->
  string_forallb f s = true -> string_forallb g s = true.
Proof.
  intros Hfg. induction s as [|c s IH]; simpl; [reflexivity|].
  rewrite !andb_true_iff. intros [Hc Hs]. split; [now apply Hfg|now apply IH].
Qed.

Lemma string_forallb_append f a b :
  string_forallb f (a ++ b) = string_forallb f a && string_forallb f b.
Proof.
  induction a as [|c a IH]; [reflexivity|].
  rewrite append_cons. simpl. now rewrite IH, andb_assoc.
Qed.

Lemma split_on_no_sep sep s cur :
  string_forallb (fun c => negb (Ascii.eqb c sep)) s = true ->
  split_on sep s cur = [cur ++ s].
Proof.
  revert cur. induction s as [|c s IH]; intros cur; simpl.
  - now rewrite append_nil_r.
  - rewrite andb_true_iff, negb_true_iff. intros [-> Hs].
    rewrite (IH _ Hs), append_assoc. reflexivity.
Qed.

Lemma plain_no_slash s :
  plain_name s = true ->
  string_forallb (fun c => negb (Ascii.eqb c "/")) s = true.
Proof.
  apply string_forallb_impl. intros c.
  rewrite !negb_true_iff, !orb_false_iff. tauto.
Qed.


Lemma long_is_component s : 2 <= String.length s -> is_component s = true.
Proof.
  destruct s as [|c [|c' s]]; simpl; try lia. intros _.
  unfold is_component. simpl. now destruct (Ascii.eqb c ".").
Qed.

Lemma template_is_component app :
  is_component (app ++ "_{time:YYYY-MM-DD}.log") = true.
Proof. apply long_is_component. rewrite length_append. simpl. lia. Qed.







(** ** Lexical order of file names *)

Lemma ascii_compare_refl c : Ascii.compare c c = Eq.
Proof. unfold Ascii.compare. apply N.compare_refl. Qed.

Lemma compare_cons c d s t :
  String.compare (String c s) (String d t) =
  match Ascii.compare c d with
  | Eq => String.compare s t
  | o => o
  end.
Proof. reflexivity. Qed.

Lemma compare_refl s : String.compare s s = Eq.
Proof.
  induction s as [|c s IH]; [reflexivity|].
  now rewrite compare_cons, ascii_compare_refl.
Qed.






Lemma zfill_decimal_table k :
  List.forallb
    (fun i => String.eqb (zfill k (decimal (N.of_nat i))) (digits k (N.of_nat i)))
    (List.seq 0 (N.to_nat (pow10 k))) = true ->
  forall n, (n < pow10 k)%N -> zfill k (decimal n) = digits k n.
Proof.
  intros Htab n Hn. rewrite forallb_forall in Htab.
  specialize (Htab (N.to_nat n)). rewrite N2Nat.id in Htab.
  apply String.eqb_eq, Htab, in_seq. lia.
Qed.















Example file_names_example :
  render_path "app_{time:YYYY-MM-DD}.log" (mkDatetime 2026 11 4 9 5 7 0)
    = Some "app_2026-11-04.log" /\
  String.compare "app_2026-11-04.log" "app_2026-12-01.log" = Lt /\
  String.compare "app_2026-11-04.log" "app_2025-12-31.log" = Gt.
Proof. vm_compute. repeat split. Qed.


(** ** Rotation *)

Lemma next_boundary_midnight t0 :
  Policy.next_boundary 0 t0 = ((t0 / Policy.day + 1) * Policy.day)%Z /\
  (t0 < Policy.next_boundary 0 t0)%Z /\
  (Policy.next_boundary 0 t0 <= t0 + Policy.day)%Z /\
  (Policy.next_boundary 0 t0 mod Policy.day = 0)%Z.
Proof.
  unfold Policy.next_boundary, Policy.day.
  pose proof (Z.mod_pos_bound t0 86400 ltac:(lia)) as Hm.
  pose proof (Z.div_mod t0 86400 ltac:(lia)) as Hd.
  destruct (Z.ltb_spec (t0 mod 86400) 0) as [H|_]; [lia|].
  rewrite Z.add_0_r. repeat split; try lia.
  apply Z.mod_mul. lia.
Qed.

Lemma write_rolls_over tod name_of now line s :
  (Policy.next_boundary tod (Policy.lf_created (Policy.active s)) <= now)%Z ->
  Policy.write tod name_of now line s =
  Policy.mkSink
    (Policy.mkFile (name_of now) now None
       (Policy.Uncompressed (line ++ Policy.newline)))
    (Policy.mkFile (Policy.lf_path (Policy.active s))
       (Policy.lf_created (Policy.active s))
       (Some (Policy.next_boundary tod (Policy.lf_created (Policy.active s))))
       (Policy.lf_body (Policy.active s))
     :: Policy.closed s).
Proof.
  intros H. unfold Policy.write, Policy.crossed.
  apply Z.leb_le in H. rewrite H. reflexivity.
Qed.

Lemma write_keeps_file tod name_of now line s :
  (now < Policy.next_boundary tod (Policy.lf_created (Policy.active s)))%Z ->
  Policy.write tod name_of now line s =
  Policy.mkSink (Policy.append_line line (Policy.active s)) (Policy.closed s).
Proof.
  intros H. unfold Policy.write, Policy.crossed.
  apply Z.leb_gt in H. rewrite H. reflexivity.
Qed.

(** Writes that all happen before the boundary stay in the active file. *)
Lemma run_before_boundary tod name_of ws path created bytes old :
  List.Forall (fun w => (fst w < Policy.next_boundary tod created)%Z) ws ->
  Policy.run tod name_of ws
    (Policy.mkSink (Policy.mkFile path created None (Policy.Uncompressed bytes)) old) =
  Policy.mkSink
    (Policy.mkFile path created None
       (Policy.Uncompressed (bytes ++ Policy.lines_of ws))) old.
Proof.
  revert bytes. induction ws as [|[now line] ws IH]; intros bytes Hall.
  - simpl. now rewrite append_nil_r.
  - inversion Hall as [|? ? Hnow Hrest]; subst. cbn [fst] in Hnow.
    cbn [Policy.run]. rewrite write_keeps_file by exact Hnow.
    unfold Policy.append_line. cbn [Policy.lf_body Policy.active Policy.closed
      Policy.lf_path Policy.lf_created Policy.lf_rotated].
    rewrite (IH _ Hrest). cbn [Policy.lines_of].
    now rewrite !append_assoc.
Qed.

Lemma run_app tod name_of ws1 ws2 s :
  Policy.run tod name_of (ws1 ++ ws2) s =
  Policy.run tod name_of ws2 (Policy.run tod name_of ws1 s).
Proof.
  revert s. induction ws1 as [|[now line] ws1 IH]; intros s; [reflexivity|].
  simpl. apply IH.
Qed.

(** C9: the file sink is registered with rotation at 00:00, the boundary
    of a file is the first midnight after it was opened, and in a run of
    writes none before the boundary leaves the active file while the
    first at or after it closes that file and goes to a new one. *)
Theorem C9_rotation_at_boundary
  (attrs0 : gmap string value) (w w' : world) (self : gmap string value) :
  construct attrs0 w = (w', Ok self) ->
  shadows_none attrs0 = true ->
  exists fh ch tod,
    handlers w' = [(next_id w, fh); (S (next_id w), ch)] /\
    kwarg "rotation" fh = Some (VStr "00:00") /\
    Policy.rotation_of fh = Some tod /\ tod = 0%Z /\
    (forall t0,
        Policy.next_boundary tod t0 = ((t0 / Policy.day + 1) * Policy.day)%Z /\
        (t0 < Policy.next_boundary tod t0 <= t0 + Policy.day)%Z) /\
    forall name_of path created bytes old ws now line,
      let b := Policy.next_boundary tod created in
      let s0 := Policy.mkSink
                  (Policy.mkFile path created None (Policy.Uncompressed bytes)) old in
      List.Forall (fun w => (fst w < b)%Z) ws ->
      Policy.run tod name_of ws s0 =
        Policy.mkSink
          (Policy.mkFile path created None
             (Policy.Uncompressed (bytes ++ Policy.lines_of ws))) old /\
      ((b <= now)%Z ->
       Policy.run tod name_of (ws ++ [(now, line)]) s0 =
         Policy.mkSink
           (Policy.mkFile (name_of now) now None
              (Policy.Uncompressed (line ++ Policy.newline)))
           (Policy.mkFile path created (Some b)
              (Policy.Uncompressed (bytes ++ Policy.lines_of ws)) :: old)) /\
      ((now < b)%Z ->
       Policy.run tod name_of (ws ++ [(now, line)]) s0 =
         Policy.mkSink
           (Policy.mkFile path created None
              (Policy.Uncompressed
                 (bytes ++ Policy.lines_of (ws ++ [(now, line)])))) old).
Proof.
  intros Hc Hs.
  destruct (construct_default_sinks _ _ _ _ Hc Hs) as (p & a & _ & _ & Hh).
  exists (default_file_sink p a), default_console_sink, 0%Z.
  split; [exact Hh|]. split; [reflexivity|]. split; [reflexivity|].
  split; [reflexivity|]. split.
  { intros t0. destruct (next_boundary_midnight t0) as (E & Hlt & Hle & _).
    split; [exact E|]. split; assumption. }
  intros name_of path created bytes old ws now line b s0 Hall.
  split; [now apply run_before_boundary|]. split.
  - intros Hb. rewrite run_app. unfold s0.
    rewrite run_before_boundary by exact Hall.
    cbn [Policy.run]. rewrite write_rolls_over by exact Hb. reflexivity.
  - intros Hb. unfold s0. apply run_before_boundary.
    apply Forall_app. split; [exact Hall|]. constructor; [exact Hb|constructor].
Qed.

(** ** Compression *)











(** ** Directory provisioning *)

Lemma os_mkdir_raise abs rp f f' e :
  os_mkdir abs rp f = (f', Raise e) -> f' = f.
Proof.
  unfold os_mkdir. destruct (fs_lookup f abs rp); [congruence|].
  destruct (fs_lookup f abs (List.tl rp)) as [[|[]]|]; congruence.
Qed.

Lemma os_mkdir_ok abs rp f f' :
  os_mkdir abs rp f = (f', Ok tt) -> is_dir f' abs rp = true.
Proof.
  unfold os_mkdir. destruct (fs_lookup f abs rp) eqn:E; [congruence|].
  destruct (fs_lookup f abs (List.tl rp)) as [[|[]]|]; try congruence.
  intros H. injection H as <-. unfold is_dir, fs_lookup.
  destruct rp as [|c rp]; [discriminate E|].
  now rewrite lookup_insert_eq.
Qed.

Ltac exist_ok_case f1 :=
  match goal with
  | |- (if is_dir f1 ?abs ?rp then _ else _) = _ -> _ =>
      let Hd := fresh "Hd" in
      let H := fresh "H" in
      destruct (is_dir f1 abs rp) eqn:Hd; [|discriminate];
      intros H; injection H as <-; exact Hd
  end.

Lemma mkdir_exist_ok_is_dir abs rp f f' :
  mkdir_exist_ok abs rp f = (f', Ok tt) -> is_dir f' abs rp = true.
Proof.
  unfold mkdir_exist_ok. destruct (os_mkdir abs rp f) as [f1 [[]|e]] eqn:E.
  - intros H. injection H as <-. exact (os_mkdir_ok _ _ _ _ E).
  - destruct e as [| | |[] p]; first [exist_ok_case f1 | discriminate].
Qed.

(** After a successful [mkdir(parents=True, exist_ok=True)] the path is a
    directory. *)
Lemma mkdir_parents_is_dir abs rp f f' :
  mkdir_parents abs rp f = (f', Ok tt) -> is_dir f' abs rp = true.
Proof.
  revert f f'. induction rp as [|c rp IH]; intros f f'; cbn [mkdir_parents];
    destruct (os_mkdir abs _ f) as [f1 [[]|e]] eqn:E.
  - intros H. injection H as <-. exact (os_mkdir_ok _ _ _ _ E).
  - destruct e as [| | |[] p]; first [exist_ok_case f1 | discriminate].
  - intros H. injection H as <-. exact (os_mkdir_ok _ _ _ _ E).
  - destruct e as [| | |[] p]; try exist_ok_case f1.
    destruct (mkdir_parents abs rp f1) as [f2 [[]|e]]; [|discriminate].
    apply mkdir_exist_ok_is_dir.
Qed.

(** On a path that is a directory already the call succeeds and changes
    nothing. *)
Lemma mkdir_parents_existing abs rp f :
  is_dir f abs rp = true -> mkdir_parents abs rp f = (f, Ok tt).
Proof.
  intros Hd.
  assert (E : os_mkdir abs rp f = (f, Raise (OSError FileExistsError (rpath abs rp)))).
  { unfold os_mkdir. unfold is_dir in Hd. now destruct (fs_lookup f abs rp). }
  destruct rp; cbn [mkdir_parents]; rewrite E, Hd; reflexivity.
Qed.

Lemma mkdir_parents_idempotent abs rp f f' :
  mkdir_parents abs rp f = (f', Ok tt) -> mkdir_parents abs rp f' = (f', Ok tt).
Proof. intros H. apply mkdir_parents_existing, (mkdir_parents_is_dir _ _ _ _ H). Qed.

(** With [logs_dir] resolved to a path, [_ensure_logs_directory] is
    idempotent: run after a successful run it succeeds and changes
    nothing. *)
Lemma ensure_idempotent w self s' p :
  getattr_self self "logs_dir" = Ok (VPath p) ->
  _ensure_logs_directory (w, self) = (s', Ok tt) ->
  _ensure_logs_directory s' = (s', Ok tt).
Proof.
  intros Hd. rewrite ensure_run, Hd.
  destruct (mkdir_parents _ _ (fs w)) as [f' [[]|e]] eqn:Hm; [|discriminate].
  intros H. injection H as <-. rewrite ensure_run, Hd. cbn [fs set_fs].
  rewrite (mkdir_parents_idempotent _ _ _ _ Hm). reflexivity.
Qed.

(** With [logs_dir] resolved to a path, a directory that cannot be made
    ends the constructor call with the error of [mkdir], before any sink
    is registered. *)
Lemma construct_mkdir_failure attrs0 w p f' e :
  getattr_self (<["logger" := VLoguru]> attrs0) "logs_dir" = Ok (VPath p) ->
  mkdir_parents (p_abs p) (List.rev (p_parts p)) (fs w) = (f', Raise e) ->
  construct attrs0 w = (mkWorld [] (next_id w) f' (outputs w), Raise e).
Proof.
  intros Hd Hm. unfold construct. rewrite init_run, ensure_run, Hd.
  cbn [fs set_handlers]. rewrite Hm. reflexivity.
Qed.

(** ** Further properties of attribute lookup *)

Lemma getattr_value_not_recursion v name :
  getattr_value v name <> Raise RecursionError.
Proof.
  unfold getattr_value. destruct v; try discriminate.
  destruct (loguru_attr name); discriminate.
Qed.

(** X1: on an object whose [logger] attribute is not set, access to a
    name that ordinary lookup does not find ends in [RecursionError]
    whatever the recursion limit: [__getattr__] evaluates [self.logger],
    which enters [__getattr__] again. *)
Theorem X1_getattr_without_logger
  (fuel : nat) (self : gmap string value) (name : string) :
  lookup_normal self name = None ->
  lookup_normal self "logger" = None ->
  getattr_fuel fuel self name = Raise RecursionError /\
  getattr_self self name = Raise RecursionError.
Proof.
  intros Hn Hl. split; [|unfold getattr_self]; now apply getattr_fuel_no_logger.
Qed.

(** X2: once [self.logger] resolves, attribute access needs one call of
    [__getattr__] at most: for every recursion limit of at least one the
    result is that of limit one, and it is never [RecursionError]. *)
Theorem X2_getattr_depth_one
  (fuel : nat) (self : gmap string value) (name : string) (target : value) :
  lookup_normal self "logger" = Some target ->
  getattr_fuel (S fuel) self name = getattr_fuel 1 self name /\
  getattr_self self name = getattr_fuel 1 self name /\
  getattr_fuel (S fuel) self name <> Raise RecursionError.
Proof.
  intros Hl.
  assert (H : forall f, getattr_fuel (S f) self name =
                        match lookup_normal self name with
                        | Some v => Ok v
                        | None => getattr_value target name
                        end).
  { intros f. destruct (lookup_normal self name) as [v|] eqn:Hn.
    - now apply getattr_fuel_found.
    - now apply getattr_fuel_fallback. }
  split; [now rewrite !H|]. split.
  - unfold getattr_self. rewrite recursion_limit_S. now rewrite !H.
  - rewrite H. destruct (lookup_normal self name); [discriminate|].
    apply getattr_value_not_recursion.
Qed.

(** ** Further properties of the constructor and of directory provisioning *)



Lemma os_mkdir_mono abs rp f f' r k n :
  os_mkdir abs rp f = (f', r) ->
  (f !! k = Some n -> f' !! k = Some n) /\
  (f' !! k = Some n -> f !! k = Some n \/ n = Dir true).
Proof.
  unfold os_mkdir. destruct (fs_lookup f abs rp) eqn:E.
  { intros H; injection H as <- _. tauto. }
  destruct (fs_lookup f abs (List.tl rp)) as [[|[]]|];
    intros H; injection H as <- _; try tauto.
  destruct rp as [|c rp]; [discriminate E|]. cbn [fs_lookup] in E.
  destruct (decide ((abs, c :: rp) = k)) as [<-|Hne].
  - unfold fs_key in *. rewrite lookup_insert_eq, E. split; [discriminate|].
    intros H; injection H as <-. now right.
  - rewrite lookup_insert_ne by exact Hne. tauto.
Qed.

Lemma mkdir_exist_ok_mono abs rp f f' r k n :
  mkdir_exist_ok abs rp f = (f', r) ->
  (f !! k = Some n -> f' !! k = Some n) /\
  (f' !! k = Some n -> f !! k = Some n \/ n = Dir true).
Proof.
  unfold mkdir_exist_ok. destruct (os_mkdir abs rp f) as [f1 [[]|e]] eqn:E;
    pose proof (os_mkdir_mono _ _ _ _ _ k n E) as Hm.
  - intros H; injection H as <- _. exact Hm.
  - destruct e as [| | |[] p]; try destruct (is_dir f1 abs rp);
      intros H; injection H as <- _; exact Hm.
Qed.

(** [mkdir] keeps every entry there is and adds nothing but writable
    directories. *)
Lemma mkdir_parents_mono abs rp f f' r k n :
  mkdir_parents abs rp f = (f', r) ->
  (f !! k = Some n -> f' !! k = Some n) /\
  (f' !! k = Some n -> f !! k = Some n \/ n = Dir true).
Proof.
  revert f f' r. induction rp as [|c rp IH]; intros f f' r; cbn [mkdir_parents];
    destruct (os_mkdir abs _ f) as [f1 [[]|e]] eqn:E;
    pose proof (os_mkdir_mono _ _ _ _ _ k n E) as Hm.
  - intros H; injection H as <- _. exact Hm.
  - destruct e as [| | |[] p]; try destruct (is_dir f1 abs []);
      intros H; injection H as <- _; exact Hm.
  - intros H; injection H as <- _. exact Hm.
  - destruct e as [| | |[] p];
      try (destruct (is_dir f1 abs (c :: rp));
           intros H; injection H as <- _; exact Hm).
    destruct (mkdir_parents abs rp f1) as [f2 [[]|e]] eqn:E2;
      pose proof (IH _ _ _ E2) as Hm2.
    + intros H. pose proof (mkdir_exist_ok_mono _ _ _ _ _ k n H) as Hm3.
      split; [tauto|]. intros Hk. destruct Hm3 as [_ Hm3].
      destruct (Hm3 Hk) as [Hk2|]; [|now right].
      destruct Hm2 as [_ Hm2]. destruct (Hm2 Hk2) as [Hk1|]; [|now right].
      tauto.
    + intros H; injection H as <- _.
      split; [tauto|]. intros Hk. destruct Hm2 as [_ Hm2].
      destruct (Hm2 Hk) as [Hk1|]; [|now right]. tauto.
Qed.

(** X5: whatever its outcome, [_ensure_logs_directory] leaves the sinks
    and the instance alone, keeps every file-system entry there is, and
    adds nothing but writable directories. *)
Theorem X5_ensure_only_adds_directories
  (w : world) (self : gmap string value) :
  let s' := fst (_ensure_logs_directory (w, self)) in
  snd s' = self /\
  handlers (fst s') = handlers w /\ next_id (fst s') = next_id w /\
  outputs (fst s') = outputs w /\
  (forall k n, fs w !! k = Some n -> fs (fst s') !! k = Some n) /\
  (forall k n, fs (fst s') !! k = Some n -> fs w !! k = Some n \/ n = Dir true).
Proof.
  cbv zeta. rewrite ensure_run.
  destruct (getattr_self self "logs_dir") as [d|e];
    [destruct d as [| | | |p| | | | |]|]; try (cbn; repeat split; tauto).
  destruct (mkdir_parents _ _ (fs w)) as [f' r] eqn:Hm. cbn.
  repeat split; try reflexivity; intros k n;
    now apply (mkdir_parents_mono _ _ _ _ _ k n Hm).
Qed.

(** X6: when [self.logs_dir] is a path and [_ensure_logs_directory]
    succeeds, that path is a directory afterwards, and a second call
    succeeds and changes nothing. *)
Theorem X6_ensure_idempotent
  (w : world) (self : gmap string value) (s' : pystate) (p : Path) :
  getattr_self self "logs_dir" = Ok (VPath p) ->
  _ensure_logs_directory (w, self) = (s', Ok tt) ->
  is_dir (fs (fst s')) (p_abs p) (List.rev (p_parts p)) = true /\
  _ensure_logs_directory s' = (s', Ok tt).
Proof.
  intros Hd Hr. split; [|exact (ensure_idempotent _ _ _ _ Hd Hr)].
  rewrite ensure_run, Hd in Hr.
  destruct (mkdir_parents _ _ (fs w)) as [f' [[]|e]] eqn:Hm; [|discriminate].
  injection Hr as <-. cbn. exact (mkdir_parents_is_dir _ _ _ _ Hm).
Qed.

(** X7: when [logs_dir] resolves but [app_name] does not, the constructor
    has made the directory by the time it raises: the call fails with the
    error of the [app_name] lookup, no sink is registered, and the
    directory stays on disk. *)
Theorem X7_directory_made_before_app_name_fails
  (attrs0 : gmap string value) (w : world) (p : Path)
  (f' : gmap fs_key node) (e : exn) :
  getattr_self (<["logger" := VLoguru]> attrs0) "logs_dir" = Ok (VPath p) ->
  mkdir_parents (p_abs p) (List.rev (p_parts p)) (fs w) = (f', Ok tt) ->
  getattr_self (<["logger" := VLoguru]> attrs0) "app_name" = Raise e ->
  construct attrs0 w = (mkWorld [] (next_id w) f' (outputs w), Raise e) /\
  is_dir f' (p_abs p) (List.rev (p_parts p)) = true.
Proof.
  intros Hd Hm Ha. split; [|exact (mkdir_parents_is_dir _ _ _ _ Hm)].
  assert (Hl : (<["logger" := VLoguru]> attrs0) !! "logger" = Some VLoguru)
    by apply lookup_insert_eq.
  unfold construct. rewrite init_run, ensure_run, Hd.
  cbn [fs set_handlers]. rewrite Hm.
  rewrite configure_file_run by exact Hl. rewrite Hd, Ha. reflexivity.
Qed.

Lemma mkdir_parents_on_file abs rp f :
  fs_lookup f abs rp = Some File ->
  mkdir_parents abs rp f = (f, Raise (OSError FileExistsError (rpath abs rp))).
Proof.
  intros Hf.
  assert (E : os_mkdir abs rp f = (f, Raise (OSError FileExistsError (rpath abs rp))))
    by (unfold os_mkdir; now rewrite Hf).
  assert (Hd : is_dir f abs rp = false) by (unfold is_dir; now rewrite Hf).
  destruct rp; cbn [mkdir_parents]; rewrite E, Hd; reflexivity.
Qed.

(** X8: when [logs_dir] names a regular file, [exist_ok=True] does not
    help: the constructor raises [FileExistsError] for that path, the
    file system is as before and no sink is registered. *)
Theorem X8_regular_file_in_the_way
  (attrs0 : gmap string value) (w : world) (p : Path) :
  getattr_self (<["logger" := VLoguru]> attrs0) "logs_dir" = Ok (VPath p) ->
  fs_lookup (fs w) (p_abs p) (List.rev (p_parts p)) = Some File ->
  construct attrs0 w =
  (set_handlers [] (next_id w) w, Raise (OSError FileExistsError p)).
Proof.
  intros Hd Hf. unfold construct. rewrite init_run, ensure_run, Hd.
  cbn [fs set_handlers]. rewrite (mkdir_parents_on_file _ _ _ Hf).
  unfold rpath. rewrite List.rev_involutive. destruct p. reflexivity.
Qed.

(** ** Which arguments of the sinks an instance can change *)

Lemma attr_value_effective attrs0 name :
  name <> "logger" ->
  attr_value (<["logger" := VLoguru]> attrs0) name = effective attrs0 name.
Proof.
  intros Hne. unfold attr_value, effective, lookup_normal.
  rewrite lookup_insert_ne by congruence.
  destruct (attrs0 !! name); [reflexivity|]. now destruct (class_attr name).
Qed.

(** X9: a successful constructor call passes to the two [add] calls the
    values of the attributes as the instance sees them, so an attribute
    in front of the class body replaces the class default; the
    compression format, encoding, backtrace, diagnose, the console stream
    and colorize are written into the calls and no attribute changes
    them. *)
Theorem X9_overridable_arguments
  (attrs0 : gmap string value) (w w' : world) (self : gmap string value) :
  construct attrs0 w = (w', Ok self) ->
  exists fh ch,
    handlers w' = [(next_id w, fh); (S (next_id w), ch)] /\
    (forall k d, In (k, d) file_attr_args -> kwarg k fh = Some (effective attrs0 d)) /\
    (forall k d, In (k, d) console_attr_args -> kwarg k ch = Some (effective attrs0 d)) /\
    kwarg "compression" fh = Some (VStr "zip") /\
    kwarg "encoding" fh = Some (VStr "utf-8") /\
    kwarg "backtrace" fh = Some (VBool true) /\
    kwarg "diagnose" fh = Some (VBool false) /\
    kwarg "sink" ch = Some VStderr /\
    kwarg "colorize" ch = Some (VBool true).
Proof.
  intros Hc.
  apply construct_ok_inv in Hc as [-> (p & a & f' & _ & _ & _ & ->)].
  eexists. eexists. split; [reflexivity|].
  unfold file_sink_of, console_sink_of.
  rewrite !attr_value_effective by discriminate.
  split; [|split; [|repeat split]].
  - intros k d Hin. simpl in Hin.
    repeat destruct Hin as [E|Hin]; try (injection E as <- <-; reflexivity).
    contradiction.
  - intros k d Hin. simpl in Hin.
    repeat destruct Hin as [E|Hin]; try (injection E as <- <-; reflexivity).
    contradiction.
Qed.

(** ** Application names that are not plain *)

Lemma starts_with_slash_append x y :
  starts_with_slash x = true -> starts_with_slash (x ++ y) = true.
Proof. destruct x as [|c x]; [discriminate|]. now rewrite append_cons. Qed.

Lemma plain_not_slash x y :
  plain_name x = true -> starts_with_slash y = false ->
  starts_with_slash (x ++ y) = false.
Proof.
  destruct x as [|c x]; [intros _ H; exact H|].
  intros Hp _. rewrite append_cons. simpl. unfold plain_name in Hp. simpl in Hp.
  apply andb_true_iff in Hp as [Hc _].
  rewrite negb_true_iff, !orb_false_iff in Hc. tauto.
Qed.

Lemma split_on_sep x rest cur :
  string_forallb (fun c => negb (Ascii.eqb c "/")) x = true ->
  split_on "/" (x ++ "/" ++ rest) cur = (cur ++ x) :: split_on "/" rest "".
Proof.
  revert cur. induction x as [|c x IH]; intros cur H.
  - change ("" ++ "/" ++ rest) with (String "/" rest). cbn [split_on].
    rewrite Ascii.eqb_refl, append_nil_r. reflexivity.
  - simpl in H. rewrite andb_true_iff, negb_true_iff in H. destruct H as [Hc Hx].
    rewrite append_cons. cbn [split_on]. rewrite Hc, (IH _ Hx), append_assoc.
    reflexivity.
Qed.

(** X10: the sink path follows [logs_dir / name] of [pathlib] also for
    application names that are not plain: one that begins with a slash
    makes the path independent of [logs_dir], and one of the form [x/y]
    puts the file into the directory [logs_dir / x], under the name that
    begins with [y]. *)
Theorem X10_app_name_with_slash (p : Path) (a : value) :
  (starts_with_slash (format_value a) = true ->
   path_div p (file_template a) = parse_path (file_template a) /\
   forall p', path_div p' (file_template a) = path_div p (file_template a)) /\
  (forall x y,
      format_value a = x ++ "/" ++ y ->
      plain_name x = true -> plain_name y = true -> is_component x = true ->
      path_div p (file_template a) =
        mkPath (p_abs p) (p_parts p ++ [x; y ++ "_{time:YYYY-MM-DD}.log"]) /\
      path_parent (path_div p (file_template a)) = path_div p x /\
      path_name (path_div p (file_template a)) = y ++ "_{time:YYYY-MM-DD}.log").
Proof.
  split.
  - intros Hs. unfold file_template, path_div.
    split; [|intros p']; now rewrite (starts_with_slash_append _ _ Hs).
  - intros x y E Hx Hy Hcx. unfold file_template. rewrite E.
    assert (Hfull : (x ++ "/" ++ y) ++ "_{time:YYYY-MM-DD}.log" =
                    x ++ "/" ++ (y ++ "_{time:YYYY-MM-DD}.log"))
      by (rewrite append_assoc; reflexivity).
    rewrite Hfull.
    assert (Hx0 : starts_with_slash x = false).
    { destruct x as [|c x']; [reflexivity|]. unfold plain_name in Hx. simpl in Hx.
      apply andb_true_iff in Hx as [Hc _].
      rewrite negb_true_iff, !orb_false_iff in Hc. simpl. tauto. }
    assert (Hns : starts_with_slash (x ++ "/" ++ (y ++ "_{time:YYYY-MM-DD}.log")) = false).
    { destruct x as [|c x']; [discriminate Hcx|]. rewrite append_cons. exact Hx0. }
    assert (Hparts : parts_of (x ++ "/" ++ (y ++ "_{time:YYYY-MM-DD}.log")) =
                     [x; y ++ "_{time:YYYY-MM-DD}.log"]).
    { unfold parts_of. rewrite split_on_sep by now apply plain_no_slash.
      rewrite split_on_no_sep
        by (rewrite string_forallb_append, (plain_no_slash _ Hy); reflexivity).
      change ("" ++ x) with x.
      change ("" ++ (y ++ "_{time:YYYY-MM-DD}.log")) with (y ++ "_{time:YYYY-MM-DD}.log").
      cbn [List.filter]. now rewrite Hcx, template_is_component. }
    assert (Hpx : parts_of x = [x]).
    { unfold parts_of. rewrite split_on_no_sep by now apply plain_no_slash.
      change ("" ++ x) with x. cbn [List.filter]. now rewrite Hcx. }
    unfold path_div. rewrite Hns, Hparts, Hx0, Hpx.
    split; [reflexivity|].
    unfold path_parent, path_name. cbn [p_abs p_parts].
    change [x; y ++ "_{time:YYYY-MM-DD}.log"]
      with (List.app [x] [y ++ "_{time:YYYY-MM-DD}.log"]).
    rewrite app_assoc, List.removelast_last, List.last_last.
    split; reflexivity.
Qed.

(** ** Width of a file record and the console layout *)











(** ** Constructing again *)

(** X13: after a successful constructor call, a call with the same
    attributes succeeds as well: it leaves the file system as it is and
    registers the same two sinks again, under the next two ids. *)
Theorem X13_constructing_again
  (attrs0 : gmap string value) (w w1 : world) (self : gmap string value) :
  construct attrs0 w = (w1, Ok self) ->
  construct attrs0 w1 =
  (mkWorld (List.map (fun ih => (2 + fst ih, snd ih)) (handlers w1))
           (2 + next_id w1) (fs w1) (outputs w1),
   Ok self).
Proof.
  intros Hc.
  apply construct_ok_inv in Hc as [-> (p & a & f' & Hd & Ha & Hm & ->)].
  rewrite (construct_ok_intro attrs0 _ p a f' Hd Ha).
  - reflexivity.
  - cbn [fs]. exact (mkdir_parents_idempotent _ _ _ _ Hm).
Qed.

End LoggerWrapper.

(** ** The class at concrete inputs *)

Lemma example_construct_ok :
  construct "app" "var/logs" example_loguru_has example_attrs example_world =
  (example_after, Ok example_self).
Proof. vm_compute. reflexivity. Qed.

Lemma example_shadows_none : shadows_none "app" "var/logs" example_attrs = true.
Proof. vm_compute. reflexivity. Qed.

Example getattr_examples :
  getattr_self "app" "var/logs" example_loguru_has example_self "info" =
    Ok (VLoguruAttr "info") /\
  getattr_self "app" "var/logs" example_loguru_has example_self "bind" =
    Raise (AttributeError "Logger" "bind") /\
  getattr_self "app" "var/logs" example_loguru_has example_self "FILE_FORMAT" =
    Ok (VStr FILE_FORMAT) /\
  getattr_self "app" "var/logs" example_loguru_has example_attrs "info" =
    Raise RecursionError.
Proof. vm_compute. repeat split. Qed.

(** C6: in a fresh process [LoggerWrapper()] does not provision the log
    directory: the call raises [AttributeError] for [logs_dir] and leaves
    the file system as it was, although [mkdir] on the directory the class
    names in [DEFAULT_LOGS_DIR] would have created it. *)
Theorem C6_directory_not_provisioned :
  class_attr "app" "var/logs" "DEFAULT_LOGS_DIR" = Some (VPath (parse_path "var/logs")) /\
  construct "app" "var/logs" example_loguru_has ∅ example_world =
    (example_world, Raise (AttributeError "Logger" "logs_dir")) /\
  fs (fst (construct "app" "var/logs" example_loguru_has ∅ example_world)) = ∅ /\
  path_mkdir (parse_path "var/logs") example_world =
    (set_fs (<[(false, ["logs"; "var"]) := Dir true]>
               (<[(false, ["var"]) := Dir true]> ∅)) example_world, Ok tt).
Proof. vm_compute. repeat split. Qed.

Lemma C1_witness :
  example_loguru_has "logs_dir" = false /\
  construct "app" "var/logs" example_loguru_has ∅ example_world =
    (example_world, Raise (AttributeError "Logger" "logs_dir")) /\
  handlers (fst (construct "app" "var/logs" example_loguru_has ∅ example_world)) = [].
Proof.
  split; [reflexivity|].
  destruct (C1_construction_raises_AttributeError
              "app" "var/logs" example_loguru_has example_world eq_refl)
    as (_ & _ & _ & Hc & Hh).
  split; [exact Hc|exact Hh].
Defined.

Lemma C2_witness :
  construct "app" "var/logs" example_loguru_has example_attrs example_world =
    (example_after, Ok example_self) /\
  sink_output (emit_all example_records example_after) 0 =
    [ example_record "DEBUG" 10 "d"; example_record "INFO" 20 "i";
      example_record "ERROR" 40 "e" ] /\
  sink_output (emit_all example_records example_after) 1 =
    [ example_record "INFO" 20 "i"; example_record "ERROR" 40 "e" ].
Proof.
  split; [exact example_construct_ok|].
  destruct (C2_threshold_filtering "app" "var/logs" example_loguru_has
              example_attrs example_world example_after example_self example_records
              example_construct_ok example_shadows_none)
    as (_ & _ & _ & Hf & Hc).
  split; [exact Hf|exact Hc].
Defined.


Lemma C4_witness :
  exists fh ch,
    handlers example_after = [(0, fh); (1, ch)] /\
    kwarg "level" fh = Some (VStr "DEBUG") /\
    kwarg "level" ch = Some (VStr "INFO") /\
    Policy.retention_of fh = Some 45%Z /\
    Policy.rotation_of fh = Some 0%Z /\
    Policy.compression_delay_of fh = Some 7%Z /\
    kwarg "enqueue" fh = Some (VBool true).
Proof.
  destruct (C4_default_configuration "app" "var/logs" example_loguru_has
              example_attrs example_world example_after example_self
              example_construct_ok example_shadows_none)
    as (_ & fh & ch & Hh & Hlf & Hlc & _ & Hret & _ & Hrot & _ & Hdel & Henq).
  exists fh, ch. repeat split; assumption.
Defined.



Lemma C9_witness :
  exists fh ch,
    handlers example_after = [(0, fh); (1, ch)] /\
    Policy.rotation_of fh = Some 0%Z /\
    Policy.run 0 (fun _ => "next.log") [(100%Z, "a"); (86400%Z, "b")]
      (Policy.mkSink (Policy.mkFile "first.log" 50 None (Policy.Uncompressed "")) []) =
    Policy.mkSink
      (Policy.mkFile "next.log" 86400 None
         (Policy.Uncompressed ("b" ++ Policy.newline)))
      [Policy.mkFile "first.log" 50 (Some 86400%Z)
         (Policy.Uncompressed ("" ++ Policy.lines_of [(100%Z, "a")]))].
Proof.
  destruct (C9_rotation_at_boundary "app" "var/logs" example_loguru_has
              example_attrs example_world example_after example_self
              example_construct_ok example_shadows_none)
    as (fh & ch & tod & Hh & _ & Hr & -> & _ & Hrun).
  exists fh, ch. split; [exact Hh|]. split; [exact Hr|].
  destruct (Hrun (fun _ => "next.log") "first.log" 50%Z "" []
              [(100%Z, "a")] 86400%Z "b") as (_ & Hroll & _).
  - repeat constructor.
  - apply Hroll. vm_compute. discriminate.
Defined.

Lemma C10_witness :
  (exists p a,
      handlers example_after =
      [(0, file_sink_of "app" "var/logs" example_self p a);
       (1, console_sink_of "app" "var/logs" example_self)]) /\
  ~ In 0 (handler_ids (fst (construct "app" "var/logs" example_loguru_has
                              example_attrs example_after))) /\
  ~ In 1 (handler_ids (fst (construct "app" "var/logs" example_loguru_has
                              ∅ example_after))).
Proof.
  destruct (C10_one_global_sink_table "app" "var/logs" example_loguru_has
              example_attrs example_world example_after example_self
              example_construct_ok)
    as (_ & Hh & Hlater).
  split; [exact Hh|].
  split; [apply (proj1 (Hlater example_attrs))|apply (proj1 (Hlater ∅))];
    vm_compute; tauto.
Defined.

(** ** The project constants *)

Lemma lookup_normal_constants APP LOGS APP' LOGS' self name :
  name <> "DEFAULT_APP_NAME" -> name <> "DEFAULT_LOGS_DIR" ->
  lookup_normal APP LOGS self name = lookup_normal APP' LOGS' self name.
Proof.
  intros H1 H2. unfold lookup_normal, class_attr, class_body. cbn [kwarg].
  destruct (String.eqb_spec name "DEFAULT_APP_NAME"); [contradiction|].
  destruct (String.eqb_spec name "DEFAULT_LOGS_DIR"); [contradiction|].
  reflexivity.
Qed.

Lemma getattr_fuel_constants APP LOGS APP' LOGS' has fuel self name :
  name <> "DEFAULT_APP_NAME" -> name <> "DEFAULT_LOGS_DIR" ->
  getattr_fuel APP LOGS has fuel self name = getattr_fuel APP' LOGS' has fuel self name.
Proof.
  revert name. induction fuel as [|fuel IH]; intros name H1 H2; cbn [getattr_fuel];
    rewrite (lookup_normal_constants APP LOGS APP' LOGS' self name H1 H2).
  - reflexivity.
  - rewrite (IH "logger") by discriminate. reflexivity.
Qed.

Lemma getattr_self_constants APP LOGS APP' LOGS' has self name :
  name <> "DEFAULT_APP_NAME" -> name <> "DEFAULT_LOGS_DIR" ->
  getattr_self APP LOGS has self name = getattr_self APP' LOGS' has self name.
Proof. apply getattr_fuel_constants. Qed.

Lemma attr_value_constants APP LOGS APP' LOGS' self name :
  name <> "DEFAULT_APP_NAME" -> name <> "DEFAULT_LOGS_DIR" ->
  attr_value APP LOGS self name = attr_value APP' LOGS' self name.
Proof.
  intros H1 H2. unfold attr_value.
  now rewrite (lookup_normal_constants APP LOGS APP' LOGS' self name H1 H2).
Qed.

(** X3: the constructor never reads [APP_NAME] or [LOGS_PATH]: with the
    same attributes in front of the class body and the same process, two
    values of the project constants give the same outcome, the same
    sinks and the same file system. *)
Theorem X3_project_constants_unused
  (APP LOGS APP' LOGS' : string) (has : string -> bool)
  (attrs0 : gmap string value) (w : world) :
  construct APP LOGS has attrs0 w = construct APP' LOGS' has attrs0 w.
Proof.
  unfold construct. rewrite !init_run, !ensure_run.
  set (s1 := <["logger" := VLoguru]> attrs0).
  assert (Hl : s1 !! "logger" = Some VLoguru) by apply lookup_insert_eq.
  rewrite (getattr_self_constants APP LOGS APP' LOGS' has s1 "logs_dir") by discriminate.
  destruct (getattr_self APP' LOGS' has s1 "logs_dir") as [d|e] eqn:Hd; [|reflexivity].
  destruct d as [| | | |p| | | | |];
    lazymatch goal with
    | |- context [mkdir_parents] => idtac
    | _ => reflexivity
    end.
  destruct (mkdir_parents _ _ _) as [f' [[]|e]]; [|reflexivity].
  rewrite !configure_file_run by exact Hl.
  rewrite (getattr_self_constants APP LOGS APP' LOGS' has s1 "logs_dir") by discriminate.
  rewrite (getattr_self_constants APP LOGS APP' LOGS' has s1 "app_name") by discriminate.
  rewrite Hd.
  destruct (getattr_self APP' LOGS' has s1 "app_name") as [a|e]; [|reflexivity].
  rewrite !configure_console_run by exact Hl.
  unfold file_sink_of, console_sink_of.
  rewrite !(attr_value_constants APP LOGS APP' LOGS' s1) by discriminate.
  reflexivity.
Qed.

(** ** The further properties at concrete inputs *)

Lemma X1_witness :
  getattr_self "app" "var/logs" example_loguru_has example_attrs "info" =
  Raise RecursionError.
Proof.
  apply (X1_getattr_without_logger "app" "var/logs" example_loguru_has
           0 example_attrs "info"); vm_compute; reflexivity.
Defined.

Lemma X2_witness :
  getattr_fuel "app" "var/logs" example_loguru_has 7 example_self "info" =
    getattr_fuel "app" "var/logs" example_loguru_has 1 example_self "info" /\
  getattr_fuel "app" "var/logs" example_loguru_has 1 example_self "info" =
    Ok (VLoguruAttr "info").
Proof.
  split; [|vm_compute; reflexivity].
  apply (X2_getattr_depth_one "app" "var/logs" example_loguru_has
           6 example_self "info" VLoguru).
  vm_compute. reflexivity.
Defined.


Lemma X6_witness :
  is_dir (fs example_after) false ["logs"; "var"] = true /\
  _ensure_logs_directory "app" "var/logs" example_loguru_has
    (set_fs (fs example_after) example_world, example_self) =
  ((set_fs (fs example_after) example_world, example_self), Ok tt).
Proof.
  apply (X6_ensure_idempotent "app" "var/logs" example_loguru_has
           example_world example_self
           (set_fs (fs example_after) example_world, example_self)
           (parse_path "var/logs")); vm_compute; reflexivity.
Defined.

Lemma X7_witness :
  construct "app" "var/logs" example_loguru_has
    (<["logs_dir" := VPath (parse_path "var/logs")]> ∅) example_world =
  (mkWorld [] 0 (fs example_after) ∅, Raise (AttributeError "Logger" "app_name")).
Proof.
  apply (X7_directory_made_before_app_name_fails "app" "var/logs" example_loguru_has
           (<["logs_dir" := VPath (parse_path "var/logs")]> ∅) example_world
           (parse_path "var/logs")); vm_compute; reflexivity.
Defined.

Lemma X8_witness :
  construct "app" "var/logs" example_loguru_has example_attrs
    (mkWorld [] 0 (<[(false, ["logs"; "var"]) := File]> ∅) ∅) =
  (mkWorld [] 0 (<[(false, ["logs"; "var"]) := File]> ∅) ∅,
   Raise (OSError FileExistsError (parse_path "var/logs"))).
Proof.
  exact (X8_regular_file_in_the_way "app" "var/logs" example_loguru_has
           example_attrs (mkWorld [] 0 (<[(false, ["logs"; "var"]) := File]> ∅) ∅)
           (parse_path "var/logs")
           ltac:(vm_compute; reflexivity) ltac:(vm_compute; reflexivity)).
Defined.

Lemma example_override_ok :
  construct "app" "var/logs" example_loguru_has example_override_attrs example_world =
  (example_override_after, Ok (<["logger" := VLoguru]> example_override_attrs)).
Proof. vm_compute. reflexivity. Qed.

Lemma X9_witness :
  exists fh ch,
    handlers example_override_after = [(0, fh); (1, ch)] /\
    kwarg "level" ch = Some (VStr "ERROR") /\
    kwarg "level" fh = Some (VStr "DEBUG") /\
    kwarg "compression" fh = Some (VStr "zip").
Proof.
  destruct (X9_overridable_arguments "app" "var/logs" example_loguru_has
              example_override_attrs example_world example_override_after
              (<["logger" := VLoguru]> example_override_attrs)
              example_override_ok)
    as (fh & ch & Hh & Hf & Hc & Hz & _).
  exists fh, ch. split; [exact Hh|]. split; [|split; [|exact Hz]].
  - exact (Hc "level" "DEFAULT_LEVEL_CONSOLE" (or_introl eq_refl)).
  - exact (Hf "level" "DEFAULT_LEVEL_FILE"
             (or_intror (or_intror (or_intror (or_introl eq_refl))))).
Defined.


Lemma X13_witness :
  construct "app" "var/logs" example_loguru_has example_attrs example_after =
  (mkWorld [(2, default_file_sink "app" "var/logs" (parse_path "var/logs") (VStr "app"));
            (3, default_console_sink "app" "var/logs")]
           4 (fs example_after) ∅,
   Ok example_self).
Proof.
  apply (X13_constructing_again "app" "var/logs" example_loguru_has
           example_attrs example_world example_after example_self
           example_construct_ok).
Defined.
